(** * Inventory application (app.py): draft / finalize document lifecycle

    A shallow embedding of the request handlers of [app.py] that compose,
    checkpoint and finalize consumption bills and reception sheets:

    - the relational store is a record of tables, each a list of rows in
      insertion order (a query without ORDER BY returns rows in that order);
    - the Flask session is a record holding the two optional item buffers
      (['bill_items'], ['reception_items']);
    - a handler is a function from its form values, the session and the
      store to a response, a new session and a new store;
    - the transaction of the two finalize handlers runs in a small
      state-and-exception monad over a working copy of the store, so that
      [db.session.rollback()] is the return to the store the request began
      with.

    Quantities are Python numbers ([float(request.form['quantity'])]).  The
    handlers only compare, add and subtract them, so the model is written
    over a class [Num] of those operations; [float_Num] is the binary64
    instance the handlers run with. *)

From Stdlib Require Import List String Ascii Bool ZArith Lia PrimFloat.
From Stdlib Require Import Sorted Permutation.
Import ListNotations.
Open Scope string_scope.
Open Scope list_scope.
Open Scope Z_scope.

(** ** Numbers *)

Class Num (R : Type) : Type := {
  nzero : R;
  nadd : R -> R -> R;          (* x + y *)
  nsub : R -> R -> R;          (* x - y *)
  ngt : R -> R -> bool         (* x > y *)
}.

(** Python's [float]: IEEE 754 binary64. *)
#[export] Instance float_Num : Num float := {
  nzero := 0%float;
  nadd := PrimFloat.add;
  nsub := PrimFloat.sub;
  ngt := fun x y => PrimFloat.ltb y x
}.

(** ** Strings: [str.strip()] *)

(** [str.isspace] on the characters below U+0100. *)
Definition is_space (c : ascii) : bool :=
  let n := N_of_ascii c in
  ((9 <=? n) && (n <=? 13) || (28 <=? n) && (n <=? 32)
   || (n =? 133) || (n =? 160))%N.

Fixpoint lstrip (s : string) : string :=
  match s with
  | EmptyString => EmptyString
  | String c rest => if is_space c then lstrip rest else s
  end.

Fixpoint rstrip (s : string) : string :=
  match s with
  | EmptyString => EmptyString
  | String c rest =>
      match rstrip rest with
      | EmptyString => if is_space c then EmptyString else String c EmptyString
      | kept => String c kept
      end
  end.

Definition strip (s : string) : string := rstrip (lstrip s).

(** Python truthiness of a [str]: [not s]. *)
Definition str_empty (s : string) : bool :=
  match s with EmptyString => true | _ => false end.

(** ** Rows and tables *)

Definition timestamp := Z.

Section Model.

Context {R : Type} {N : Num R}.

(** [Product] rows. *)
Record Product : Type := mkProduct {
  p_id : Z;
  p_code : string;
  p_name : string;
  p_unit : string;
  p_quantity : R;
  p_location : string;
  p_min_stock : R;
  p_updated_at : timestamp
}.

(** An entry of a session buffer: the dict built by the add-item handlers. *)
Record Item : Type := mkItem {
  item_number : Z;
  code : string;
  name : string;
  unit_ : string;
  quantity : R;
  location : string
}.

(** The columns shared by [BillItem], [ReceptionItem], [DraftBillItem] and
    [DraftReceptionItem]; [parent_id] is [bill_id], [reception_id] or
    [draft_id]. *)
Record ItemRow : Type := mkItemRow {
  parent_id : Z;
  r_item_number : Z;
  product_code : string;
  product_name : string;
  r_unit : string;
  r_quantity : R;
  r_location : string
}.

Record ConsumptionBill : Type := mkConsumptionBill {
  cb_id : Z;
  cb_employee_name : string;
  cb_employee_signature : string;
  cb_is_finished : bool;
  cb_bill_date : timestamp
}.

Record ReceptionSheet : Type := mkReceptionSheet {
  rs_id : Z;
  rs_supplier : string;
  rs_document_number : string;
  rs_notes : string;
  rs_is_finished : bool;
  rs_reception_date : timestamp
}.

Record DraftBill : Type := mkDraftBill {
  dbill_id : Z;
  dbill_employee_name : string;
  dbill_employee_signature : string;
  dbill_last_updated : timestamp
}.

Record DraftReception : Type := mkDraftReception {
  drec_id : Z;
  drec_supplier : string;
  drec_document_number : string;
  drec_notes : string;
  drec_last_updated : timestamp
}.

Record Database : Type := mkDatabase {
  t_product : list Product;
  t_consumption_bill : list ConsumptionBill;
  t_bill_item : list ItemRow;
  t_reception_sheet : list ReceptionSheet;
  t_reception_item : list ItemRow;
  t_draft_bill : list DraftBill;
  t_draft_bill_item : list ItemRow;
  t_draft_reception : list DraftReception;
  t_draft_reception_item : list ItemRow
}.

(** The Flask session: [None] is "key not in session". *)
Record Session : Type := mkSession {
  s_bill_items : option (list Item);
  s_reception_items : option (list Item)
}.

Definition set_bill_items (v : option (list Item)) (s : Session) : Session :=
  {| s_bill_items := v; s_reception_items := s_reception_items s |}.

Definition set_reception_items (v : option (list Item)) (s : Session) : Session :=
  {| s_bill_items := s_bill_items s; s_reception_items := v |}.

(** ** Responses *)

Inductive exn : Type :=
| DatabaseError (call : nat).     (* raised by the [call]-th store operation *)

(** Flashed and JSON messages, by the place that emits them. *)
Inductive message : Type :=
| ProductNotFound          (* 'Produsul nu a fost gasit' (lines 176, 509) *)
| InsufficientStock        (* 'Cantitatea solicitata depaseste stocul disponibil' (179) *)
| ItemRemoved              (* 'Articolul a fost eliminat!' (209, 539) *)
| BillDraftSaved           (* 'Bonul a fost salvat ca ciorna!' (247) *)
| ReceptionDraftSaved      (* 'Receptia a fost salvata ca ciorna!' (579) *)
| EmployeeNameRequired     (* 'Numele angajatului este obligatoriu!' (257) *)
| SupplierRequired         (* 'Furnizorul este obligatoriu!' (590) *)
| NoBillItems              (* 'Nu exista articole in bon!' (261) *)
| NoReceptionItems         (* 'Nu exista articole in receptie!' (594) *)
| BillFinalized            (* 'Bonul de consum a fost finalizat cu succes!' (303) *)
| ReceptionFinalized       (* 'Fisa de receptie a fost finalizata cu succes!' (637) *)
| BillFinalizeError (e : exn)        (* 'Eroare la finalizarea bonului: ...' (308) *)
| ReceptionFinalizeError (e : exn).  (* 'Eroare la finalizarea receptiei: ...' (642) *)

Inductive category : Type := success | error.

Inductive endpoint : Type :=
| to_create_consumption_bill
| to_consumption_bills
| to_create_reception
| to_reception.

(** [flash(...)] (when there is one) followed by [redirect(url_for(...))]. *)
Record page_response : Type := FlashRedirect {
  flashed : option (message * category);
  target : endpoint
}.

(** [jsonify({'error': ...}), 400] or [jsonify({'success': True, 'item': item})]. *)
Inductive json_response : Type :=
| JsonError (m : message) (status : Z)
| JsonSuccess (item : Item).

(** ** Queries *)

(** [Product.query.filter_by(code=c).first()]. *)
Definition product_by_code (c : string) (rows : list Product) : option Product :=
  find (fun p => String.eqb (p_code p) c) rows.

(** ** Transient line-item buffer *)

Definition len {A : Type} (l : list A) : Z := Z.of_nat (List.length l).

(** [add_bill_item] (lines 167-198). *)
Definition add_bill_item (product_code : string) (quantity : R)
    (session : Session) (db : Database) : json_response * Session :=
  match product_by_code product_code (t_product db) with
  | None => (JsonError ProductNotFound 400, session)
  | Some product =>
      if ngt quantity (p_quantity product)
      then (JsonError InsufficientStock 400, session)
      else
        let items := match s_bill_items session with
                     | None => []
                     | Some items => items
                     end in
        let item := {| item_number := len items + 1;
                       code := p_code product;
                       name := p_name product;
                       unit_ := p_unit product;
                       quantity := quantity;
                       location := p_location product |} in
        (JsonSuccess item, set_bill_items (Some (items ++ [item])) session)
  end.

(** [add_reception_item] (lines 500-528). *)
Definition add_reception_item (product_code : string) (quantity : R)
    (session : Session) (db : Database) : json_response * Session :=
  match product_by_code product_code (t_product db) with
  | None => (JsonError ProductNotFound 400, session)
  | Some product =>
      let items := match s_reception_items session with
                   | None => []
                   | Some items => items
                   end in
      let item := {| item_number := len items + 1;
                     code := p_code product;
                     name := p_name product;
                     unit_ := p_unit product;
                     quantity := quantity;
                     location := p_location product |} in
      (JsonSuccess item, set_reception_items (Some (items ++ [item])) session)
  end.

(** [list.pop(i)] for [0 <= i < len(l)]: the list without its [i]-th entry. *)
Definition pop {A : Type} (i : Z) (l : list A) : list A :=
  firstn (Z.to_nat i) l ++ skipn (S (Z.to_nat i)) l.

Definition set_item_number (n : Z) (it : Item) : Item :=
  {| item_number := n; code := code it; name := name it; unit_ := unit_ it;
     quantity := quantity it; location := location it |}.

(** [for i, item in enumerate(items): item['item_number'] = i + 1], with
    [i] counting from [start]. *)
Fixpoint renumber_from (start : Z) (items : list Item) : list Item :=
  match items with
  | [] => []
  | it :: rest => set_item_number (start + 1) it :: renumber_from (start + 1) rest
  end.

Definition renumber (items : list Item) : list Item := renumber_from 0 items.

(** [remove_bill_item] (lines 200-211). *)
Definition remove_bill_item (item_index : Z) (session : Session)
    : page_response * Session :=
  match s_bill_items session with
  | Some items =>
      if (0 <=? item_index) && (item_index <? len items)
      then (FlashRedirect (Some (ItemRemoved, success)) to_create_consumption_bill,
            set_bill_items (Some (renumber (pop item_index items))) session)
      else (FlashRedirect None to_create_consumption_bill, session)
  | None => (FlashRedirect None to_create_consumption_bill, session)
  end.

(** [remove_reception_item] (lines 530-541). *)
Definition remove_reception_item (item_index : Z) (session : Session)
    : page_response * Session :=
  match s_reception_items session with
  | Some items =>
      if (0 <=? item_index) && (item_index <? len items)
      then (FlashRedirect (Some (ItemRemoved, success)) to_create_reception,
            set_reception_items (Some (renumber (pop item_index items))) session)
      else (FlashRedirect None to_create_reception, session)
  | None => (FlashRedirect None to_create_reception, session)
  end.

(** ** Table updates *)

Definition with_product (v : list Product) (db : Database) : Database :=
  mkDatabase v (t_consumption_bill db) (t_bill_item db) (t_reception_sheet db)
    (t_reception_item db) (t_draft_bill db) (t_draft_bill_item db)
    (t_draft_reception db) (t_draft_reception_item db).

Definition with_consumption_bill (v : list ConsumptionBill) (db : Database) : Database :=
  mkDatabase (t_product db) v (t_bill_item db) (t_reception_sheet db)
    (t_reception_item db) (t_draft_bill db) (t_draft_bill_item db)
    (t_draft_reception db) (t_draft_reception_item db).

Definition with_bill_item (v : list ItemRow) (db : Database) : Database :=
  mkDatabase (t_product db) (t_consumption_bill db) v (t_reception_sheet db)
    (t_reception_item db) (t_draft_bill db) (t_draft_bill_item db)
    (t_draft_reception db) (t_draft_reception_item db).

Definition with_reception_sheet (v : list ReceptionSheet) (db : Database) : Database :=
  mkDatabase (t_product db) (t_consumption_bill db) (t_bill_item db) v
    (t_reception_item db) (t_draft_bill db) (t_draft_bill_item db)
    (t_draft_reception db) (t_draft_reception_item db).

Definition with_reception_item (v : list ItemRow) (db : Database) : Database :=
  mkDatabase (t_product db) (t_consumption_bill db) (t_bill_item db)
    (t_reception_sheet db) v (t_draft_bill db) (t_draft_bill_item db)
    (t_draft_reception db) (t_draft_reception_item db).

Definition with_draft_bill (v : list DraftBill) (db : Database) : Database :=
  mkDatabase (t_product db) (t_consumption_bill db) (t_bill_item db)
    (t_reception_sheet db) (t_reception_item db) v (t_draft_bill_item db)
    (t_draft_reception db) (t_draft_reception_item db).

Definition with_draft_bill_item (v : list ItemRow) (db : Database) : Database :=
  mkDatabase (t_product db) (t_consumption_bill db) (t_bill_item db)
    (t_reception_sheet db) (t_reception_item db) (t_draft_bill db) v
    (t_draft_reception db) (t_draft_reception_item db).

Definition with_draft_reception (v : list DraftReception) (db : Database) : Database :=
  mkDatabase (t_product db) (t_consumption_bill db) (t_bill_item db)
    (t_reception_sheet db) (t_reception_item db) (t_draft_bill db)
    (t_draft_bill_item db) v (t_draft_reception_item db).

Definition with_draft_reception_item (v : list ItemRow) (db : Database) : Database :=
  mkDatabase (t_product db) (t_consumption_bill db) (t_bill_item db)
    (t_reception_sheet db) (t_reception_item db) (t_draft_bill db)
    (t_draft_bill_item db) (t_draft_reception db) v.

(** The primary key given to a row added to a table whose keys are [ids]. *)
Definition next_id (ids : list Z) : Z := fold_right Z.max 0 ids + 1.

(** [query.order_by(last_updated.desc()).first()]: a row with the greatest
    time stamp, the earliest such row of the table when several share it. *)
Fixpoint latest_by {A : Type} (key : A -> timestamp) (rows : list A) : option A :=
  match rows with
  | [] => None
  | r :: rest =>
      match latest_by key rest with
      | Some r' => if key r <? key r' then Some r' else Some r
      | None => Some r
      end
  end.

(** The keyword arguments of the four item-row constructors. *)
Definition row_of_item (owner : Z) (item : Item) : ItemRow :=
  {| parent_id := owner;
     r_item_number := item_number item;
     product_code := code item;
     product_name := name item;
     r_unit := unit_ item;
     r_quantity := quantity item;
     r_location := location item |}.

(** The dict appended to the session buffer by the two draft loaders. *)
Definition item_of_row (row : ItemRow) : Item :=
  {| item_number := r_item_number row;
     code := product_code row;
     name := product_name row;
     unit_ := r_unit row;
     quantity := r_quantity row;
     location := r_location row |}.

(** ** Draft store *)

(** [save_bill_draft] (lines 213-248). *)
Definition save_bill_draft (employee_name employee_signature : string)
    (now : timestamp) (session : Session) (db : Database)
    : page_response * Database :=
  let db := with_draft_bill [] db in
  let db := with_draft_bill_item [] db in
  let draft := {| dbill_id := next_id (map dbill_id (t_draft_bill db));
                  dbill_employee_name := employee_name;
                  dbill_employee_signature := employee_signature;
                  dbill_last_updated := now |} in
  let db := with_draft_bill (t_draft_bill db ++ [draft]) db in
  let db :=
    match s_bill_items session with
    | Some items =>
        with_draft_bill_item
          (t_draft_bill_item db ++ map (row_of_item (dbill_id draft)) items) db
    | None => db
    end in
  (FlashRedirect (Some (BillDraftSaved, success)) to_create_consumption_bill, db).

(** [save_reception_draft] (lines 543-580). *)
Definition save_reception_draft (supplier document_number notes : string)
    (now : timestamp) (session : Session) (db : Database)
    : page_response * Database :=
  let db := with_draft_reception [] db in
  let db := with_draft_reception_item [] db in
  let draft := {| drec_id := next_id (map drec_id (t_draft_reception db));
                  drec_supplier := supplier;
                  drec_document_number := document_number;
                  drec_notes := notes;
                  drec_last_updated := now |} in
  let db := with_draft_reception (t_draft_reception db ++ [draft]) db in
  let db :=
    match s_reception_items session with
    | Some items =>
        with_draft_reception_item
          (t_draft_reception_item db ++ map (row_of_item (drec_id draft)) items) db
    | None => db
    end in
  (FlashRedirect (Some (ReceptionDraftSaved, success)) to_create_reception, db).

(** The dicts returned by the draft loaders. *)
Record bill_draft_data : Type := mkBillDraftData {
  employee_name : string;
  employee_signature : string
}.

Record reception_draft_data : Type := mkReceptionDraftData {
  supplier : string;
  document_number : string;
  notes : string
}.

(** [load_draft_bill] (lines 645-670); [None] is Python's [None]. *)
Definition load_draft_bill (session : Session) (db : Database)
    : option bill_draft_data * Session :=
  match latest_by dbill_last_updated (t_draft_bill db) with
  | None => (None, session)
  | Some draft =>
      let items := filter (fun row => parent_id row =? dbill_id draft)
                     (t_draft_bill_item db) in
      (Some {| employee_name := dbill_employee_name draft;
               employee_signature := dbill_employee_signature draft |},
       set_bill_items (Some (map item_of_row items)) session)
  end.

(** [load_draft_reception] (lines 672-698). *)
Definition load_draft_reception (session : Session) (db : Database)
    : option reception_draft_data * Session :=
  match latest_by drec_last_updated (t_draft_reception db) with
  | None => (None, session)
  | Some draft =>
      let items := filter (fun row => parent_id row =? drec_id draft)
                     (t_draft_reception_item db) in
      (Some {| supplier := drec_supplier draft;
               document_number := drec_document_number draft;
               notes := drec_notes draft |},
       set_reception_items (Some (map item_of_row items)) session)
  end.

(** ** Transactions *)

(** The unit of work of one request: a working copy of the store and the
    number of statements sent to it so far. *)
Record tx_state : Type := mkTx {
  tx_db : Database;
  tx_calls : nat
}.

(** A computation inside [try: ...]: it raises or returns. *)
Definition Tx (A : Type) : Type := tx_state -> exn + (A * tx_state).

Definition tx_ret {A : Type} (a : A) : Tx A := fun st => inr (a, st).

Definition tx_bind {A B : Type} (c : Tx A) (k : A -> Tx B) : Tx B :=
  fun st =>
    match c st with
    | inl e => inl e
    | inr (a, st') => k a st'
    end.

Notation "x <- c ;; k" := (tx_bind c (fun x => k))
  (at level 61, c at next level, right associativity).
Notation "c ;;; k" := (tx_bind c (fun _ => k))
  (at level 61, right associativity).

Definition tx_get : Tx Database := fun st => inr (tx_db st, st).

Definition tx_modify (f : Database -> Database) : Tx unit :=
  fun st => inr (tt, mkTx (f (tx_db st)) (tx_calls st)).

Section Faults.

(** Which statements fail: [faulty k] says that the [k]-th statement this
    request sends to the store raises.  The statements of a finalize
    request are the flush that inserts the document row, one query per
    buffer entry (whose autoflush sends the pending line-item insert and the
    pending quantity update of the entry before), the two bulk deletes of
    the draft tables (the first flushes the last quantity update) and the
    commit; [db.session.add] and attribute assignments send nothing. *)
Variable faulty : nat -> bool.

(** One statement sent to the store. *)
Definition execute : Tx unit :=
  fun st =>
    if faulty (tx_calls st)
    then inl (DatabaseError (tx_calls st))
    else inr (tt, mkTx (tx_db st) (S (tx_calls st))).

(** [Product.query.filter_by(code=c).first()] inside the transaction. *)
Definition query_product (c : string) : Tx (option Product) :=
  execute ;;;
  db <- tx_get ;;
  tx_ret (product_by_code c (t_product db)).

(** Assignments to the attributes of the object that [first()] returned
    for code [c] reach its row, the first one with that code. *)
Fixpoint write_product (c : string) (product : Product) (rows : list Product)
    : list Product :=
  match rows with
  | [] => []
  | p :: rest =>
      if String.eqb (p_code p) c then product :: rest
      else p :: write_product c product rest
  end.

Definition set_quantity (q : R) (now : timestamp) (p : Product) : Product :=
  {| p_id := p_id p; p_code := p_code p; p_name := p_name p; p_unit := p_unit p;
     p_quantity := q; p_location := p_location p; p_min_stock := p_min_stock p;
     p_updated_at := now |}.

(** [for item in items: body(item)]. *)
Fixpoint for_each {A : Type} (items : list A) (body : A -> Tx unit) : Tx unit :=
  match items with
  | [] => tx_ret tt
  | item :: rest => body item ;;; for_each rest body
  end.

(** The [try] block of [finalize_consumption_bill] (lines 265-298). *)
Definition bill_transaction (employee_name employee_signature : string)
    (now : timestamp) (items : list Item) : Tx unit :=
  (* db.session.add(bill); db.session.flush() *)
  execute ;;;
  db <- tx_get ;;
  let bill := {| cb_id := next_id (map cb_id (t_consumption_bill db));
                 cb_employee_name := employee_name;
                 cb_employee_signature := employee_signature;
                 cb_is_finished := true;
                 cb_bill_date := now |} in
  tx_modify (with_consumption_bill (t_consumption_bill db ++ [bill])) ;;;
  for_each items (fun item =>
    tx_modify (fun db =>
      with_bill_item (t_bill_item db ++ [row_of_item (cb_id bill) item]) db) ;;;
    product <- query_product (code item) ;;
    match product with
    | Some product =>
        tx_modify (fun db =>
          with_product
            (write_product (code item)
               (set_quantity (nsub (p_quantity product) (quantity item)) now product)
               (t_product db)) db)
    | None => tx_ret tt
    end) ;;;
  (* DraftBill.query.delete(); DraftBillItem.query.delete() *)
  execute ;;;
  tx_modify (with_draft_bill []) ;;;
  execute ;;;
  tx_modify (with_draft_bill_item []) ;;;
  (* db.session.commit() *)
  execute.

(** [finalize_consumption_bill] (lines 250-309). *)
Definition finalize_consumption_bill (employee_name employee_signature : string)
    (now : timestamp) (session : Session) (db : Database)
    : page_response * Session * Database :=
  let employee_name := strip employee_name in
  let employee_signature := strip employee_signature in
  if str_empty employee_name
  then (FlashRedirect (Some (EmployeeNameRequired, error)) to_create_consumption_bill,
        session, db)
  else
    match s_bill_items session with
    | None | Some [] =>
        (FlashRedirect (Some (NoBillItems, error)) to_create_consumption_bill,
         session, db)
    | Some items =>
        match bill_transaction employee_name employee_signature now items
                (mkTx db 0) with
        | inr (_, st) =>
            (FlashRedirect (Some (BillFinalized, success)) to_consumption_bills,
             set_bill_items None session, tx_db st)
        | inl e =>
            (* db.session.rollback() *)
            (FlashRedirect (Some (BillFinalizeError e, error)) to_create_consumption_bill,
             session, db)
        end
    end.

(** The [try] block of [finalize_reception] (lines 598-632). *)
Definition reception_transaction (supplier document_number notes : string)
    (now : timestamp) (items : list Item) : Tx unit :=
  (* db.session.add(reception); db.session.flush() *)
  execute ;;;
  db <- tx_get ;;
  let reception := {| rs_id := next_id (map rs_id (t_reception_sheet db));
                      rs_supplier := supplier;
                      rs_document_number := document_number;
                      rs_notes := notes;
                      rs_is_finished := true;
                      rs_reception_date := now |} in
  tx_modify (with_reception_sheet (t_reception_sheet db ++ [reception])) ;;;
  for_each items (fun item =>
    tx_modify (fun db =>
      with_reception_item
        (t_reception_item db ++ [row_of_item (rs_id reception) item]) db) ;;;
    product <- query_product (code item) ;;
    match product with
    | Some product =>
        tx_modify (fun db =>
          with_product
            (write_product (code item)
               (set_quantity (nadd (p_quantity product) (quantity item)) now product)
               (t_product db)) db)
    | None => tx_ret tt
    end) ;;;
  (* DraftReception.query.delete(); DraftReceptionItem.query.delete() *)
  execute ;;;
  tx_modify (with_draft_reception []) ;;;
  execute ;;;
  tx_modify (with_draft_reception_item []) ;;;
  (* db.session.commit() *)
  execute.

(** [finalize_reception] (lines 582-643). *)
Definition finalize_reception (supplier document_number notes : string)
    (now : timestamp) (session : Session) (db : Database)
    : page_response * Session * Database :=
  let supplier := strip supplier in
  let document_number := strip document_number in
  let notes := strip notes in
  if str_empty supplier
  then (FlashRedirect (Some (SupplierRequired, error)) to_create_reception,
        session, db)
  else
    match s_reception_items session with
    | None | Some [] =>
        (FlashRedirect (Some (NoReceptionItems, error)) to_create_reception,
         session, db)
    | Some items =>
        match reception_transaction supplier document_number notes now items
                (mkTx db 0) with
        | inr (_, st) =>
            (FlashRedirect (Some (ReceptionFinalized, success)) to_reception,
             set_reception_items None session, tx_db st)
        | inl e =>
            (* db.session.rollback() *)
            (FlashRedirect (Some (ReceptionFinalizeError e, error)) to_create_reception,
             session, db)
        end
    end.

End Faults.

(** ** Sequences of requests *)

(** A request of one session, with what the handler reads from its
    environment: the clock and the statements that fail. *)
Inductive request : Type :=
| AddBillItem (product_code : string) (quantity : R)
| RemoveBillItem (item_index : Z)
| SaveBillDraft (employee_name employee_signature : string) (now : timestamp)
| CreateConsumptionBill
| FinalizeConsumptionBill (employee_name employee_signature : string)
    (now : timestamp) (faulty : nat -> bool)
| AddReceptionItem (product_code : string) (quantity : R)
| RemoveReceptionItem (item_index : Z)
| SaveReceptionDraft (supplier document_number notes : string) (now : timestamp)
| CreateReception
| FinalizeReception (supplier document_number notes : string)
    (now : timestamp) (faulty : nat -> bool).

(** The session and the store after a request; [create_consumption_bill]
    and [create_reception] (lines 157-165, 490-498) load the draft. *)
Definition handle (req : request) (st : Session * Database) : Session * Database :=
  let (session, db) := st in
  match req with
  | AddBillItem c q => (snd (add_bill_item c q session db), db)
  | RemoveBillItem i => (snd (remove_bill_item i session), db)
  | SaveBillDraft n sg now => (session, snd (save_bill_draft n sg now session db))
  | CreateConsumptionBill => (snd (load_draft_bill session db), db)
  | FinalizeConsumptionBill n sg now faulty =>
      let '(_, session', db') := finalize_consumption_bill faulty n sg now session db in
      (session', db')
  | AddReceptionItem c q => (snd (add_reception_item c q session db), db)
  | RemoveReceptionItem i => (snd (remove_reception_item i session), db)
  | SaveReceptionDraft sp dn nt now =>
      (session, snd (save_reception_draft sp dn nt now session db))
  | CreateReception => (snd (load_draft_reception session db), db)
  | FinalizeReception sp dn nt now faulty =>
      let '(_, session', db') := finalize_reception faulty sp dn nt now session db in
      (session', db')
  end.

Definition run (reqs : list request) (st : Session * Database) : Session * Database :=
  fold_left (fun st req => handle req st) reqs st.

(** The requests that only add to or remove from a buffer. *)
Definition is_buffer_request (req : request) : bool :=
  match req with
  | AddBillItem _ _ | RemoveBillItem _
  | AddReceptionItem _ _ | RemoveReceptionItem _ => true
  | _ => false
  end.

(** ** Vocabulary of the properties *)

(** [start, start + 1, ...], [n] numbers. *)
Fixpoint count_from (start : Z) (n : nat) : list Z :=
  match n with
  | O => []
  | S n' => start :: count_from (start + 1) n'
  end.

(** The sequence numbers of a buffer are 1..n in list order. *)
Definition numbered (buffer : option (list Item)) : Prop :=
  match buffer with
  | None => True
  | Some items => map item_number items = count_from 1 (List.length items)
  end.

(** An entry without its sequence number. *)
Definition snapshot (item : Item) : string * string * string * R * string :=
  (code item, name item, unit_ item, quantity item, location item).

(** The entries of a buffer, none when the key is absent. *)
Definition entries (buffer : option (list Item)) : list Item :=
  match buffer with
  | None => []
  | Some items => items
  end.

(** What the loop of a finalize handler does to the [Product] table for one
    entry, with [op] the subtraction or the addition. *)
Definition stock_step (op : R -> R -> R) (now : timestamp)
    (rows : list Product) (item : Item) : list Product :=
  match product_by_code (code item) rows with
  | Some product =>
      write_product (code item)
        (set_quantity (op (p_quantity product) (quantity item)) now product) rows
  | None => rows
  end.

Definition apply_stock (op : R -> R -> R) (now : timestamp)
    (items : list Item) (rows : list Product) : list Product :=
  fold_left (stock_step op now) items rows.

(** The store a consumption-bill transaction commits. *)
Definition bill_committed (employee_name employee_signature : string)
    (now : timestamp) (items : list Item) (db : Database) : Database :=
  let bill := {| cb_id := next_id (map cb_id (t_consumption_bill db));
                 cb_employee_name := employee_name;
                 cb_employee_signature := employee_signature;
                 cb_is_finished := true;
                 cb_bill_date := now |} in
  {| t_product := apply_stock nsub now items (t_product db);
     t_consumption_bill := t_consumption_bill db ++ [bill];
     t_bill_item := t_bill_item db ++ map (row_of_item (cb_id bill)) items;
     t_reception_sheet := t_reception_sheet db;
     t_reception_item := t_reception_item db;
     t_draft_bill := [];
     t_draft_bill_item := [];
     t_draft_reception := t_draft_reception db;
     t_draft_reception_item := t_draft_reception_item db |}.

(** The store a reception transaction commits. *)
Definition reception_committed (supplier document_number notes : string)
    (now : timestamp) (items : list Item) (db : Database) : Database :=
  let reception := {| rs_id := next_id (map rs_id (t_reception_sheet db));
                      rs_supplier := supplier;
                      rs_document_number := document_number;
                      rs_notes := notes;
                      rs_is_finished := true;
                      rs_reception_date := now |} in
  {| t_product := apply_stock nadd now items (t_product db);
     t_consumption_bill := t_consumption_bill db;
     t_bill_item := t_bill_item db;
     t_reception_sheet := t_reception_sheet db ++ [reception];
     t_reception_item :=
       t_reception_item db ++ map (row_of_item (rs_id reception)) items;
     t_draft_bill := t_draft_bill db;
     t_draft_bill_item := t_draft_bill_item db;
     t_draft_reception := [];
     t_draft_reception_item := [] |}.

(** The quantity of the product a code denotes, when there is one. *)
Definition stock_of (c : string) (db : Database) : option R :=
  option_map p_quantity (product_by_code c (t_product db)).

(** The entries of a buffer that carry code [c], in order. *)
Definition entries_of (c : string) (items : list Item) : list Item :=
  filter (fun item => String.eqb (code item) c) items.

(** The product of an entry is in the catalog. *)
Definition in_catalog (rows : list Product) (item : Item) : bool :=
  match product_by_code (code item) rows with
  | Some _ => true
  | None => false
  end.

(** The entries of a buffer whose product is in the catalog. *)
Definition with_stock (db : Database) (items : list Item) : list Item :=
  filter (in_catalog (t_product db)) items.

Definition sum (l : list R) : R := fold_right nadd nzero l.

(** The quantity in stock, over the whole catalog. *)
Definition total_stock (db : Database) : R :=
  sum (map p_quantity (t_product db)).

(** A quantity is positive: [q > 0]. *)
Definition positive (q : R) : Prop := ngt q nzero = true.

Definition item_positive (item : Item) : Prop := positive (quantity item).

Definition row_positive (row : ItemRow) : Prop := positive (r_quantity row).

(** Every recorded line item, draft line item and buffer entry has a
    positive quantity. *)
Definition quantities_positive (st : Session * Database) : Prop :=
  let (session, db) := st in
  Forall item_positive (entries (s_bill_items session))
  /\ Forall item_positive (entries (s_reception_items session))
  /\ Forall row_positive (t_bill_item db)
  /\ Forall row_positive (t_reception_item db)
  /\ Forall row_positive (t_draft_bill_item db)
  /\ Forall row_positive (t_draft_reception_item db).

(** The add-item requests of a sequence all ask for a positive quantity. *)
Definition asks_positive (req : request) : Prop :=
  match req with
  | AddBillItem _ q | AddReceptionItem _ q => positive q
  | _ => True
  end.

End Model.

(** * The catalog, the listings and the document views *)

(** [x <= y], the comparison of the low-stock query of [index] (line 47). *)
Class NumLe (R : Type) : Type := {
  nle : R -> R -> bool
}.

(** On binary64 it is the IEEE comparison: false when either side is NaN. *)
#[export] Instance float_NumLe : NumLe float := {
  nle := PrimFloat.leb
}.

Section Site.

Context {R : Type} {N : Num R} {L : NumLe R}.

(* The tables of this section hold quantities of type [R]. *)
Local Abbreviation Product := (Product (R:=R)).
Local Abbreviation Item := (Item (R:=R)).
Local Abbreviation ItemRow := (ItemRow (R:=R)).
Local Abbreviation Database := (Database (R:=R)).
Local Abbreviation Session := (Session (R:=R)).
Local Abbreviation request := (request (R:=R)).

(** ** Ordering *)

(** [query.order_by(...)]: rows in the order [le], rows that compare equal
    in table order. *)
Fixpoint insert_by {A : Type} (le : A -> A -> bool) (x : A) (l : list A) : list A :=
  match l with
  | [] => [x]
  | y :: rest => if le x y then x :: l else y :: insert_by le x rest
  end.

Definition order_by {A : Type} (le : A -> A -> bool) (rows : list A) : list A :=
  fold_right (insert_by le) [] rows.

(** ** Product catalog *)

(** What the catalog pages answer. *)
Inductive catalog_message : Type :=
| ProductAdded             (* 'Produsul a fost adaugat cu succes!' (102) *)
| ProductUpdated           (* 'Produsul a fost actualizat cu succes!' (133) *)
| ProductDeleted           (* 'Produsul a fost sters cu succes!' (148) *)
| CodeExists.              (* 'Codul produsului exista deja!' (106, 137) *)

Inductive catalog_response : Type :=
| ToProducts (flashed : catalog_message)    (* flash(..., 'success'); redirect(url_for('products')) *)
| ProductForm (flashed : catalog_message)   (* flash(..., 'error'); render_template('products.html', ...) *)
| NotFound404.                              (* get_or_404 aborts *)

(** [Product.query.get(product_id)]. *)
Definition product_by_id (product_id : Z) (rows : list Product) : option Product :=
  find (fun p => p_id p =? product_id) rows.

(** Modelled from the spec: the unique constraint on the product code, which
    models.py declares and [IntegrityError] reports.  A row may not carry the
    code of a row with another primary key. *)
Definition code_taken (product_id : Z) (c : string) (rows : list Product) : bool :=
  existsb (fun p => negb (p_id p =? product_id) && String.eqb (p_code p) c) rows.

(** [add_product], the POST branch (lines 80-108); the time stamp of the
    new row is the time of the request. *)
Definition add_product (code name unit : string) (quantity : R)
    (location : string) (min_stock : R) (now : timestamp) (db : Database)
    : catalog_response * Database :=
  let code := strip code in
  let name := strip name in
  let unit := strip unit in
  let location := strip location in
  let product := {| p_id := next_id (map p_id (t_product db));
                    p_code := code;
                    p_name := name;
                    p_unit := unit;
                    p_quantity := quantity;
                    p_location := location;
                    p_min_stock := min_stock;
                    p_updated_at := now |} in
  if code_taken (p_id product) code (t_product db)
  then (* except IntegrityError: db.session.rollback() *)
       (ProductForm CodeExists, db)
  else (ToProducts ProductAdded, with_product (t_product db ++ [product]) db).

(** The row with primary key [product_id] takes the attributes of [product]. *)
Fixpoint write_by_id (product_id : Z) (product : Product) (rows : list Product)
    : list Product :=
  match rows with
  | [] => []
  | p :: rest =>
      if p_id p =? product_id then product :: rest
      else p :: write_by_id product_id product rest
  end.

(** [edit_product], the POST branch (lines 110-139). *)
Definition edit_product (product_id : Z) (code name unit : string) (quantity : R)
    (location : string) (min_stock : R) (now : timestamp) (db : Database)
    : catalog_response * Database :=
  match product_by_id product_id (t_product db) with
  | None => (NotFound404, db)
  | Some product =>
      let code := strip code in
      let name := strip name in
      let unit := strip unit in
      let location := strip location in
      let product := {| p_id := p_id product;
                        p_code := code;
                        p_name := name;
                        p_unit := unit;
                        p_quantity := quantity;
                        p_location := location;
                        p_min_stock := min_stock;
                        p_updated_at := now |} in
      if code_taken product_id code (t_product db)
      then (* except IntegrityError: db.session.rollback() *)
           (ProductForm CodeExists, db)
      else (ToProducts ProductUpdated,
            with_product (write_by_id product_id product (t_product db)) db)
  end.

(** [db.session.delete(product)]: the row with that primary key goes. *)
Fixpoint delete_by_id (product_id : Z) (rows : list Product) : list Product :=
  match rows with
  | [] => []
  | p :: rest =>
      if p_id p =? product_id then rest else p :: delete_by_id product_id rest
  end.

(** [delete_product] (lines 141-149). *)
Definition delete_product (product_id : Z) (db : Database)
    : catalog_response * Database :=
  match product_by_id product_id (t_product db) with
  | None => (NotFound404, db)
  | Some _ =>
      (ToProducts ProductDeleted,
       with_product (delete_by_id product_id (t_product db)) db)
  end.

(** ** Listings *)

(** What [index] passes to its template. *)
Record dashboard : Type := mkDashboard {
  low_stock_products : list Product;
  total_products : Z;
  recent_bills : list ConsumptionBill;
  recent_receptions : list ReceptionSheet
}.

Definition bill_newer (a b : ConsumptionBill) : bool :=
  cb_bill_date b <=? cb_bill_date a.

Definition reception_newer (a b : ReceptionSheet) : bool :=
  rs_reception_date b <=? rs_reception_date a.

(** [index] (lines 43-62). *)
Definition index (db : Database) : dashboard :=
  {| low_stock_products :=
       order_by (fun p p' => nle (p_quantity p) (p_quantity p'))
         (filter (fun p => nle (p_quantity p) (p_min_stock p)) (t_product db));
     total_products := len (t_product db);
     recent_bills := firstn 5 (order_by bill_newer (t_consumption_bill db));
     recent_receptions :=
       firstn 5 (order_by reception_newer (t_reception_sheet db)) |}.

(** [consumption_bills] (lines 151-155): the bills the page lists. *)
Definition consumption_bills (db : Database) : list ConsumptionBill :=
  order_by bill_newer (t_consumption_bill db).

(** [reception] (lines 387-391): the sheets the page lists. *)
Definition reception (db : Database) : list ReceptionSheet :=
  order_by reception_newer (t_reception_sheet db).

(** [view_consumption_bill] (lines 311-317): the bill and its items handed
    to the template; [None] is the 404 of [get_or_404]. *)
Definition view_consumption_bill (bill_id : Z) (db : Database)
    : option (ConsumptionBill * list ItemRow) :=
  match find (fun b => cb_id b =? bill_id) (t_consumption_bill db) with
  | None => None
  | Some bill =>
      Some (bill,
            order_by (fun a b => r_item_number a <=? r_item_number b)
              (filter (fun row => parent_id row =? bill_id) (t_bill_item db)))
  end.

(** ** Sequences of actions on the whole site *)

Inductive action : Type :=
| Document (req : request)
| AddProduct (code name unit : string) (quantity : R) (location : string)
    (min_stock : R) (now : timestamp)
| EditProduct (product_id : Z) (code name unit : string) (quantity : R)
    (location : string) (min_stock : R) (now : timestamp)
| DeleteProduct (product_id : Z).

Definition perform (a : action) (st : Session * Database) : Session * Database :=
  match a with
  | Document req => handle req st
  | AddProduct c n u q l m now => (fst st, snd (add_product c n u q l m now (snd st)))
  | EditProduct i c n u q l m now =>
      (fst st, snd (edit_product i c n u q l m now (snd st)))
  | DeleteProduct i => (fst st, snd (delete_product i (snd st)))
  end.

Definition perform_all (actions : list action) (st : Session * Database)
    : Session * Database :=
  fold_left (fun st a => perform a st) actions st.

(** ** Vocabulary of the properties *)

(** Primary keys and codes identify the products. *)
Definition catalog_keys_unique (db : Database) : Prop :=
  NoDup (map p_id (t_product db)) /\ NoDup (map p_code (t_product db)).

(** The sequence numbers of rows are 1..n in list order. *)
Definition rows_numbered (rows : list ItemRow) : Prop :=
  map r_item_number rows = count_from 1 (List.length rows).

(** The line items of document [owner], in table order. *)
Definition items_of (owner : Z) (table : list ItemRow) : list ItemRow :=
  filter (fun row => parent_id row =? owner) table.

(** Every line item belongs to a recorded document, and the line items of
    every recorded document are numbered 1..n in table order. *)
Definition documents_numbered (db : Database) : Prop :=
  (forall row, In row (t_bill_item db) ->
               In (parent_id row) (map cb_id (t_consumption_bill db)))
  /\ (forall row, In row (t_reception_item db) ->
                  In (parent_id row) (map rs_id (t_reception_sheet db)))
  /\ (forall owner, rows_numbered (items_of owner (t_bill_item db)))
  /\ (forall owner, rows_numbered (items_of owner (t_reception_item db))).

(** The items of the draft that a load would pick are numbered 1..n. *)
Definition drafts_numbered (db : Database) : Prop :=
  (forall draft, latest_by dbill_last_updated (t_draft_bill db) = Some draft ->
     rows_numbered (items_of (dbill_id draft) (t_draft_bill_item db)))
  /\ (forall draft, latest_by drec_last_updated (t_draft_reception db) = Some draft ->
        rows_numbered (items_of (drec_id draft) (t_draft_reception_item db))).

(** Buffers, drafts and documents all carry contiguous sequence numbers. *)
Definition numbering_kept (st : Session * Database) : Prop :=
  numbered (s_bill_items (fst st))
  /\ numbered (s_reception_items (fst st))
  /\ drafts_numbered (snd st)
  /\ documents_numbered (snd st).

(** At most one draft of each type, which owns every draft line item. *)
Definition single_draft (db : Database) : Prop :=
  (List.length (t_draft_bill db) <= 1)%nat
  /\ (List.length (t_draft_reception db) <= 1)%nat
  /\ (forall row, In row (t_draft_bill_item db) ->
                  In (parent_id row) (map dbill_id (t_draft_bill db)))
  /\ (forall row, In row (t_draft_reception_item db) ->
                  In (parent_id row) (map drec_id (t_draft_reception db))).

(** What identifies and describes a product, apart from its stock. *)
Definition description (p : Product) : Z * string * string * string * string * R :=
  (p_id p, p_code p, p_name p, p_unit p, p_location p, p_min_stock p).

(** [l] is [l'] with rows added at its end. *)
Definition extends {A : Type} (l' l : list A) : Prop := exists added, l' = l ++ added.

(** The documents and line items of [db] are still in [db'], unchanged and
    in place, with newer ones after them. *)
Definition documents_kept (db' db : Database) : Prop :=
  extends (t_consumption_bill db') (t_consumption_bill db)
  /\ extends (t_bill_item db') (t_bill_item db)
  /\ extends (t_reception_sheet db') (t_reception_sheet db)
  /\ extends (t_reception_item db') (t_reception_item db).

End Site.

(** ** Concrete stores and sessions *)

(** A session that holds no buffer yet. *)
Definition fresh_session {R : Type} : Session (R:=R) :=
  {| s_bill_items := None; s_reception_items := None |}.

(** No statement fails. *)
Definition no_faults : nat -> bool := fun _ => false.

(** The [k]-th statement fails. *)
Definition fault_at (k : nat) : nat -> bool := fun j => Nat.eqb j k.

(** A catalog with the single product "A1", 10 in stock, and no documents
    and no drafts. *)
Definition product_A1 : Product (R:=float) :=
  {| p_id := 1; p_code := "A1"; p_name := "Surub M8"; p_unit := "buc";
     p_quantity := 10%float; p_location := "Raft 1"; p_min_stock := 2%float;
     p_updated_at := 0 |}.

Definition catalog_A1 : Database (R:=float) :=
  {| t_product := [product_A1];
     t_consumption_bill := []; t_bill_item := [];
     t_reception_sheet := []; t_reception_item := [];
     t_draft_bill := []; t_draft_bill_item := [];
     t_draft_reception := []; t_draft_reception_item := [] |}.

(** The entry [add_bill_item] makes for [q] of "A1". *)
Definition entry_A1 (number : Z) (q : float) : Item (R:=float) :=
  {| item_number := number; code := "A1"; name := "Surub M8"; unit_ := "buc";
     quantity := q; location := "Raft 1" |}.

(** The same catalog with a second product, and a session whose buffers
    name "A1" twice, "B2" once and a product that is no longer in the
    catalog. *)
Definition catalog_two : Database (R:=float) :=
  {| t_product :=
       [ product_A1;
         {| p_id := 2; p_code := "B2"; p_name := "Piulita M8"; p_unit := "buc";
            p_quantity := 5%float; p_location := "Raft 2";
            p_min_stock := 1%float; p_updated_at := 0 |} ];
     t_consumption_bill := []; t_bill_item := [];
     t_reception_sheet := []; t_reception_item := [];
     t_draft_bill := []; t_draft_bill_item := [];
     t_draft_reception := []; t_draft_reception_item := [] |}.

Definition entry_B2 : Item (R:=float) :=
  {| item_number := 2; code := "B2"; name := "Piulita M8"; unit_ := "buc";
     quantity := 2%float; location := "Raft 2" |}.

Definition buffer_mixed : list (Item (R:=float)) :=
  [ entry_A1 1 4%float;
    entry_B2;
    entry_A1 3 3%float;
    {| item_number := 4; code := "C3"; name := "Saiba"; unit_ := "buc";
       quantity := 9%float; location := "Raft 3" |} ].

Definition session_mixed : Session (R:=float) :=
  {| s_bill_items := Some buffer_mixed; s_reception_items := Some buffer_mixed |}.

(** A catalog in which "A1" is stocked in very large quantity. *)
Definition catalog_big : Database (R:=float) :=
  {| t_product :=
       [ {| p_id := 1; p_code := "A1"; p_name := "Surub M8"; p_unit := "buc";
            p_quantity := 1e16%float; p_location := "Raft 1";
            p_min_stock := 2%float; p_updated_at := 0 |} ];
     t_consumption_bill := []; t_bill_item := [];
     t_reception_sheet := []; t_reception_item := [];
     t_draft_bill := []; t_draft_bill_item := [];
     t_draft_reception := []; t_draft_reception_item := [] |}.

(** A store in which a bill of 4 of "A1" was finalized at time 5, and a
    session that has 2 more of it pending. *)
Definition catalog_with_bill : Database (R:=float) :=
  {| t_product :=
       [ {| p_id := 1; p_code := "A1"; p_name := "Surub M8"; p_unit := "buc";
            p_quantity := 6%float; p_location := "Raft 1";
            p_min_stock := 2%float; p_updated_at := 5 |} ];
     t_consumption_bill :=
       [ {| cb_id := 1; cb_employee_name := "Ana Pop";
            cb_employee_signature := ""; cb_is_finished := true;
            cb_bill_date := 5 |} ];
     t_bill_item := [ row_of_item 1 (entry_A1 1 4%float) ];
     t_reception_sheet := []; t_reception_item := [];
     t_draft_bill := []; t_draft_bill_item := [];
     t_draft_reception := []; t_draft_reception_item := [] |}.

Definition session_pending : Session (R:=float) :=
  {| s_bill_items := Some [entry_A1 1 2%float]; s_reception_items := None |}.

(** A day of work on the catalog of "A1": a second product is added, a bill
    is composed, saved as a draft, reloaded and finalized, and the catalog is
    edited. *)
Definition day_of_work : list (action (R:=float)) :=
  [ AddProduct " B2 " "Piulita M8" "buc" 5%float "Raft 2" 1%float 1;
    Document (AddBillItem "A1" 4%float);
    Document (SaveBillDraft "Ana Pop" "" 2);
    Document (AddBillItem "B2" 1%float);
    Document (RemoveBillItem 0);
    Document CreateConsumptionBill;
    Document (AddReceptionItem "B2" 20%float);
    Document (FinalizeConsumptionBill "Ana Pop" "" 3 no_faults);
    Document (FinalizeReception "Depozit" "F-17" "" 4 no_faults);
    EditProduct 1 "A1" "Surub M10" "buc" 6%float "Raft 1" 2%float 5;
    DeleteProduct 2 ].

(** A catalog in which two products are low on stock and one has a
    quantity that is not a number. *)
Definition catalog_low : Database (R:=float) :=
  {| t_product :=
       [ {| p_id := 1; p_code := "A1"; p_name := "Surub M8"; p_unit := "buc";
            p_quantity := 1%float; p_location := "Raft 1";
            p_min_stock := 2%float; p_updated_at := 0 |};
         {| p_id := 2; p_code := "B2"; p_name := "Piulita M8"; p_unit := "buc";
            p_quantity := 10%float; p_location := "Raft 2";
            p_min_stock := 2%float; p_updated_at := 0 |};
         {| p_id := 3; p_code := "N4"; p_name := "Garnitura"; p_unit := "buc";
            p_quantity := nan; p_location := "Raft 4";
            p_min_stock := 5%float; p_updated_at := 0 |};
         {| p_id := 4; p_code := "C3"; p_name := "Saiba"; p_unit := "buc";
            p_quantity := 0%float; p_location := "Raft 3";
            p_min_stock := 5%float; p_updated_at := 0 |} ];
     t_consumption_bill := []; t_bill_item := [];
     t_reception_sheet := []; t_reception_item := [];
     t_draft_bill := []; t_draft_bill_item := [];
     t_draft_reception := []; t_draft_reception_item := [] |}.

(** * Properties *)

Section Properties.

Context {R : Type} {N : Num R}.

Implicit Types (db : Database (R:=R)) (session : Session (R:=R))
  (items : list (Item (R:=R))) (rows : list (Product (R:=R))).

(** ** Transactions run to a commit or to the first failing statement *)

Lemma find_app_first {A : Type} (f : A -> bool) (l l' : list A) :
  find f (l ++ l') =
  match find f l with
  | Some x => Some x
  | None => find f l'
  end.
Proof.
  induction l as [|a l IH]; cbn; [reflexivity|].
  destruct (f a); [reflexivity | exact IH].
Qed.

Lemma seq_split_tail (n : nat) :
  seq 0 (n + 4) = 0%nat :: seq 1 n ++ [S n; S (S n); S (S (S n))].
Proof.
  replace (n + 4)%nat with (S (n + 3)) by lia. cbn [seq]. f_equal.
  rewrite seq_app. f_equal.
Qed.

Section Loop.

Variable faulty : nat -> bool.
Variables (op : R -> R -> R) (now : timestamp).
Variable add_row : Item (R:=R) -> Database (R:=R) -> Database (R:=R).

Hypothesis add_row_products :
  forall item db, t_product (add_row item db) = t_product db.

(** The body shared by the loops of the two finalize handlers. *)
Let body (item : Item (R:=R)) : Tx unit :=
  tx_bind (tx_modify (add_row item)) (fun _ =>
  tx_bind (query_product faulty (code item)) (fun product =>
    match product with
    | Some product =>
        tx_modify (fun db =>
          with_product
            (write_product (code item)
               (set_quantity (op (p_quantity product) (quantity item)) now product)
               (t_product db)) db)
    | None => tx_ret tt
    end)).

Let after_item db (item : Item (R:=R)) : Database :=
  with_product (stock_step op now (t_product db) item) (add_row item db).

Lemma with_product_same db : with_product (t_product db) db = db.
Proof. destruct db; reflexivity. Qed.

Lemma loop_run items : forall db (calls : nat),
  for_each items body (mkTx db calls) =
  match find faulty (seq calls (List.length items)) with
  | Some k => inl (DatabaseError k)
  | None => inr (tt, mkTx (fold_left after_item items db)
                       (calls + List.length items))
  end.
Proof.
  induction items as [|item rest IH]; intros db calls.
  - cbn. rewrite Nat.add_0_r. reflexivity.
  - cbn [for_each List.length seq find fold_left].
    unfold tx_bind at 1. unfold body at 1.
    unfold tx_bind, tx_modify, query_product, tx_bind, execute, tx_get, tx_ret.
    cbn [tx_db tx_calls].
    destruct (faulty calls) eqn:Hf; [reflexivity|].
    assert (Hstep : forall db1,
      db1 = after_item db item ->
      for_each rest body (mkTx db1 (S calls)) =
      match find faulty (seq (S calls) (List.length rest)) with
      | Some k => inl (DatabaseError k)
      | None => inr (tt, mkTx (fold_left after_item rest (after_item db item))
                           (calls + S (List.length rest)))
      end).
    { intros db1 ->. rewrite IH. rewrite Nat.add_succ_r. reflexivity. }
    unfold after_item at 1 in Hstep. unfold stock_step in Hstep.
    cbn [tx_db tx_calls]. rewrite add_row_products.
    destruct (product_by_code (code item) (t_product db)) as [p|] eqn:Hp.
    + cbn [tx_db tx_calls]. apply Hstep. rewrite add_row_products. reflexivity.
    + cbn [tx_db tx_calls]. apply Hstep.
      rewrite <- (add_row_products item db) at 1.
      rewrite with_product_same. reflexivity.
Qed.

End Loop.

Lemma bill_loop_effect (op : R -> R -> R) (now : timestamp) (owner : Z) items :
  forall db,
  fold_left
    (fun db item =>
       with_product (stock_step op now (t_product db) item)
         (with_bill_item (t_bill_item db ++ [row_of_item owner item]) db))
    items db =
  with_product (apply_stock op now items (t_product db))
    (with_bill_item (t_bill_item db ++ map (row_of_item owner) items) db).
Proof.
  induction items as [|item rest IH]; intros db; cbn [fold_left map].
  - rewrite app_nil_r. destruct db; reflexivity.
  - rewrite IH. destruct db; cbn. rewrite <- app_assoc. reflexivity.
Qed.

Lemma reception_loop_effect (op : R -> R -> R) (now : timestamp) (owner : Z) items :
  forall db,
  fold_left
    (fun db item =>
       with_product (stock_step op now (t_product db) item)
         (with_reception_item (t_reception_item db ++ [row_of_item owner item]) db))
    items db =
  with_product (apply_stock op now items (t_product db))
    (with_reception_item (t_reception_item db ++ map (row_of_item owner) items) db).
Proof.
  induction items as [|item rest IH]; intros db; cbn [fold_left map].
  - rewrite app_nil_r. destruct db; reflexivity.
  - rewrite IH. destruct db; cbn. rewrite <- app_assoc. reflexivity.
Qed.

(** The statements after the loop of a finalize transaction: two deletes
    and the commit. *)
Ltac run_tail items db :=
  unfold tx_bind, execute, tx_modify; cbn [tx_db tx_calls find];
  change (1 + List.length items)%nat with (S (List.length items));
  destruct (_ (S (List.length items))); [reflexivity|];
  destruct (_ (S (S (List.length items)))); [reflexivity|];
  destruct (_ (S (S (S (List.length items))))); [reflexivity|];
  cbn [tx_db tx_calls];
  match goal with
  | |- inr (tt, mkTx ?a ?x) = inr (tt, mkTx ?b ?y) =>
      replace x with y by lia;
      replace a with b by (destruct db; reflexivity);
      reflexivity
  end.

(** A consumption-bill transaction stops at the first failing statement of
    its [len(items) + 4], and commits [bill_committed] when none fails. *)
Lemma bill_transaction_run (faulty : nat -> bool) (n sg : string)
    (now : timestamp) items db :
  bill_transaction faulty n sg now items (mkTx db 0) =
  match find faulty (seq 0 (List.length items + 4)) with
  | Some k => inl (DatabaseError k)
  | None => inr (tt, mkTx (bill_committed n sg now items db)
                       (List.length items + 4))
  end.
Proof.
  rewrite seq_split_tail. cbn [find]. unfold bill_transaction.
  unfold tx_bind at 1. unfold execute at 1. cbn [tx_db tx_calls].
  destruct (faulty 0%nat); [reflexivity|].
  unfold tx_bind at 1. unfold tx_get at 1. cbn [tx_db tx_calls].
  unfold tx_bind at 1. unfold tx_modify at 1. cbn [tx_db tx_calls].
  unfold tx_bind at 1. rewrite find_app_first.
  match goal with
  | |- context [for_each items ?b ?st] =>
      let H := fresh in
      pose proof (loop_run faulty nsub now
        (fun item db0 =>
           with_bill_item
             (t_bill_item db0 ++
              [row_of_item (next_id (map cb_id (t_consumption_bill db))) item]) db0)
        (fun _ _ => eq_refl) items
        (with_consumption_bill
           (t_consumption_bill db ++
            [mkConsumptionBill (next_id (map cb_id (t_consumption_bill db)))
               n sg true now]) db) 1) as H;
      cbv beta in H; cbn [cb_id rs_id]; rewrite H; clear H
  end.
  destruct (find faulty (seq 1 (List.length items))); [reflexivity|].
  rewrite bill_loop_effect. run_tail items db.
Qed.

(** The same for a reception transaction and [reception_committed]. *)
Lemma reception_transaction_run (faulty : nat -> bool) (sp dn nt : string)
    (now : timestamp) items db :
  reception_transaction faulty sp dn nt now items (mkTx db 0) =
  match find faulty (seq 0 (List.length items + 4)) with
  | Some k => inl (DatabaseError k)
  | None => inr (tt, mkTx (reception_committed sp dn nt now items db)
                       (List.length items + 4))
  end.
Proof.
  rewrite seq_split_tail. cbn [find]. unfold reception_transaction.
  unfold tx_bind at 1. unfold execute at 1. cbn [tx_db tx_calls].
  destruct (faulty 0%nat); [reflexivity|].
  unfold tx_bind at 1. unfold tx_get at 1. cbn [tx_db tx_calls].
  unfold tx_bind at 1. unfold tx_modify at 1. cbn [tx_db tx_calls].
  unfold tx_bind at 1. rewrite find_app_first.
  match goal with
  | |- context [for_each items ?b ?st] =>
      let H := fresh in
      pose proof (loop_run faulty nadd now
        (fun item db0 =>
           with_reception_item
             (t_reception_item db0 ++
              [row_of_item (next_id (map rs_id (t_reception_sheet db))) item]) db0)
        (fun _ _ => eq_refl) items
        (with_reception_sheet
           (t_reception_sheet db ++
            [mkReceptionSheet (next_id (map rs_id (t_reception_sheet db)))
               sp dn nt true now]) db) 1) as H;
      cbv beta in H; cbn [cb_id rs_id]; rewrite H; clear H
  end.
  destruct (find faulty (seq 1 (List.length items))); [reflexivity|].
  rewrite reception_loop_effect. run_tail items db.
Qed.

(** ** The outcomes of a finalize request *)

Lemma finalize_consumption_bill_cases (faulty : nat -> bool) (n sg : string)
    (now : timestamp) session db :
  finalize_consumption_bill faulty n sg now session db =
  if str_empty (strip n)
  then (FlashRedirect (Some (EmployeeNameRequired, error)) to_create_consumption_bill,
        session, db)
  else
    match entries (s_bill_items session) with
    | [] => (FlashRedirect (Some (NoBillItems, error)) to_create_consumption_bill,
             session, db)
    | items =>
        match find faulty (seq 0 (List.length items + 4)) with
        | Some k =>
            (FlashRedirect (Some (BillFinalizeError (DatabaseError k), error))
               to_create_consumption_bill, session, db)
        | None =>
            (FlashRedirect (Some (BillFinalized, success)) to_consumption_bills,
             set_bill_items None session,
             bill_committed (strip n) (strip sg) now items db)
        end
    end.
Proof.
  unfold finalize_consumption_bill.
  destruct (str_empty (strip n)); [reflexivity|].
  destruct (s_bill_items session) as [[|item rest]|]; cbn [entries];
    try reflexivity.
  rewrite bill_transaction_run.
  destruct (find faulty (seq 0 (List.length (item :: rest) + 4))); reflexivity.
Qed.

Lemma finalize_reception_cases (faulty : nat -> bool) (sp dn nt : string)
    (now : timestamp) session db :
  finalize_reception faulty sp dn nt now session db =
  if str_empty (strip sp)
  then (FlashRedirect (Some (SupplierRequired, error)) to_create_reception,
        session, db)
  else
    match entries (s_reception_items session) with
    | [] => (FlashRedirect (Some (NoReceptionItems, error)) to_create_reception,
             session, db)
    | items =>
        match find faulty (seq 0 (List.length items + 4)) with
        | Some k =>
            (FlashRedirect (Some (ReceptionFinalizeError (DatabaseError k), error))
               to_create_reception, session, db)
        | None =>
            (FlashRedirect (Some (ReceptionFinalized, success)) to_reception,
             set_reception_items None session,
             reception_committed (strip sp) (strip dn) (strip nt) now items db)
        end
    end.
Proof.
  unfold finalize_reception.
  destruct (str_empty (strip sp)); [reflexivity|].
  destruct (s_reception_items session) as [[|item rest]|]; cbn [entries];
    try reflexivity.
  rewrite reception_transaction_run.
  destruct (find faulty (seq 0 (List.length (item :: rest) + 4))); reflexivity.
Qed.

(** A finalize request that answers with its success message committed the
    whole transaction on a non-empty buffer and popped the buffer. *)
Lemma finalize_consumption_bill_success (faulty : nat -> bool) (n sg : string)
    (now : timestamp) session db resp session' db' :
  finalize_consumption_bill faulty n sg now session db = (resp, session', db') ->
  flashed resp = Some (BillFinalized, success) ->
  s_bill_items session = Some (entries (s_bill_items session))
  /\ entries (s_bill_items session) <> []
  /\ session' = set_bill_items None session
  /\ db' = bill_committed (strip n) (strip sg) now (entries (s_bill_items session)) db.
Proof.
  rewrite finalize_consumption_bill_cases. intros H Hok.
  destruct (str_empty (strip n)).
  { inversion H; subst; discriminate Hok. }
  destruct (s_bill_items session) as [[|item rest]|]; cbn [entries] in *;
    try (inversion H; subst; discriminate Hok).
  destruct (find faulty (seq 0 (List.length (item :: rest) + 4))).
  { inversion H; subst; discriminate Hok. }
  inversion H; subst. repeat split; congruence.
Qed.

Lemma finalize_reception_success (faulty : nat -> bool) (sp dn nt : string)
    (now : timestamp) session db resp session' db' :
  finalize_reception faulty sp dn nt now session db = (resp, session', db') ->
  flashed resp = Some (ReceptionFinalized, success) ->
  s_reception_items session = Some (entries (s_reception_items session))
  /\ entries (s_reception_items session) <> []
  /\ session' = set_reception_items None session
  /\ db' = reception_committed (strip sp) (strip dn) (strip nt) now
             (entries (s_reception_items session)) db.
Proof.
  rewrite finalize_reception_cases. intros H Hok.
  destruct (str_empty (strip sp)).
  { inversion H; subst; discriminate Hok. }
  destruct (s_reception_items session) as [[|item rest]|]; cbn [entries] in *;
    try (inversion H; subst; discriminate Hok).
  destruct (find faulty (seq 0 (List.length (item :: rest) + 4))).
  { inversion H; subst; discriminate Hok. }
  inversion H; subst. repeat split; congruence.
Qed.

Lemma find_fault (faulty : nat -> bool) (k n : nat) :
  faulty k = true -> (k < n)%nat ->
  exists j, find faulty (seq 0 n) = Some j /\ faulty j = true.
Proof.
  intros Hk Hlt.
  destruct (find faulty (seq 0 n)) as [j|] eqn:Hfind.
  - exists j. split; [reflexivity|]. apply find_some in Hfind. tauto.
  - pose proof (find_none _ _ Hfind k) as Hnone.
    rewrite Hk in Hnone. discriminate Hnone. apply in_seq. lia.
Qed.

(** C1: when a statement of the transaction of a finalize request fails
    (the document row, a line item, a stock adjustment, a draft delete or the
    commit), the request answers with the error message that carries the
    exception, and both the store and the session are the ones the request
    began with: no document row, no line item, no quantity change, and the
    buffer and the draft untouched. *)
Theorem finalize_failure_rolls_back (faulty : nat -> bool) (k : nat)
    (now : timestamp) session db :
  faulty k = true ->
  (forall n sg item rest,
     str_empty (strip n) = false ->
     s_bill_items session = Some (item :: rest) ->
     (k < List.length (item :: rest) + 4)%nat ->
     exists j,
       faulty j = true /\
       finalize_consumption_bill faulty n sg now session db =
       (FlashRedirect (Some (BillFinalizeError (DatabaseError j), error))
          to_create_consumption_bill, session, db))
  /\
  (forall sp dn nt item rest,
     str_empty (strip sp) = false ->
     s_reception_items session = Some (item :: rest) ->
     (k < List.length (item :: rest) + 4)%nat ->
     exists j,
       faulty j = true /\
       finalize_reception faulty sp dn nt now session db =
       (FlashRedirect (Some (ReceptionFinalizeError (DatabaseError j), error))
          to_create_reception, session, db)).
Proof.
  intros Hk. split.
  - intros n sg item rest Hn Hbuf Hlt.
    destruct (find_fault faulty k _ Hk Hlt) as [j [Hfind Hj]].
    exists j. split; [exact Hj|].
    rewrite finalize_consumption_bill_cases, Hn, Hbuf. cbn [entries].
    rewrite Hfind. reflexivity.
  - intros sp dn nt item rest Hn Hbuf Hlt.
    destruct (find_fault faulty k _ Hk Hlt) as [j [Hfind Hj]].
    exists j. split; [exact Hj|].
    rewrite finalize_reception_cases, Hn, Hbuf. cbn [entries].
    rewrite Hfind. reflexivity.
Qed.

(** C3 (amended): a finalize request on an empty or absent buffer fails and
    leaves the store and the session as they were; the message is the
    empty-document one when the required name (employee, supplier) is not
    blank, and the missing-field one when it is, that check coming first. *)
Theorem finalize_empty_buffer (faulty : nat -> bool) (now : timestamp) session db :
  (forall n sg,
     entries (s_bill_items session) = [] ->
     finalize_consumption_bill faulty n sg now session db =
     (FlashRedirect
        (Some (if str_empty (strip n) then EmployeeNameRequired else NoBillItems,
               error))
        to_create_consumption_bill, session, db))
  /\
  (forall sp dn nt,
     entries (s_reception_items session) = [] ->
     finalize_reception faulty sp dn nt now session db =
     (FlashRedirect
        (Some (if str_empty (strip sp) then SupplierRequired else NoReceptionItems,
               error))
        to_create_reception, session, db)).
Proof.
  split.
  - intros n sg Hempty. rewrite finalize_consumption_bill_cases, Hempty.
    destruct (str_empty (strip n)); reflexivity.
  - intros sp dn nt Hempty. rewrite finalize_reception_cases, Hempty.
    destruct (str_empty (strip sp)); reflexivity.
Qed.

(** ** Draft store *)

Lemma latest_by_some {A : Type} (key : A -> timestamp) (rows : list A) :
  rows <> [] -> exists r, latest_by key rows = Some r /\ In r rows.
Proof.
  induction rows as [|r rest IH]; intros Hne; [congruence|].
  cbn [latest_by]. destruct rest as [|r1 rest1].
  - exists r. cbn. auto.
  - destruct IH as [r' [Hr' Hin]]; [discriminate|]. rewrite Hr'.
    destruct (key r <? key r').
    + exists r'. split; [reflexivity | right; exact Hin].
    + exists r. split; [reflexivity | left; reflexivity].
Qed.

Lemma item_of_row_of_item (owner : Z) (item : Item (R:=R)) :
  item_of_row (row_of_item owner item) = item.
Proof. destruct item; reflexivity. Qed.

Lemma items_of_rows_of_items (owner : Z) items :
  map item_of_row (map (row_of_item owner) items) = items.
Proof.
  induction items as [|item rest IH]; cbn [map]; [reflexivity|].
  rewrite item_of_row_of_item, IH. reflexivity.
Qed.

Lemma filter_owner (owner : Z) items :
  filter (fun row : ItemRow (R:=R) => parent_id row =? owner)
    (map (row_of_item owner) items) = map (row_of_item owner) items.
Proof.
  induction items as [|item rest IH]; cbn [map filter]; [reflexivity|].
  cbn [parent_id row_of_item]. rewrite Z.eqb_refl, IH. reflexivity.
Qed.

(** C5: saving a draft and then loading it, into any session, returns the
    saved metadata and makes the buffer the list of entries that was saved:
    the same entries (codes, quantities and all other fields) in the same
    order. *)
Theorem save_then_load_draft (now : timestamp) session session2 db :
  (forall n sg,
     load_draft_bill session2 (snd (save_bill_draft n sg now session db)) =
     (Some {| employee_name := n; employee_signature := sg |},
      set_bill_items (Some (entries (s_bill_items session))) session2))
  /\
  (forall sp dn nt,
     load_draft_reception session2
       (snd (save_reception_draft sp dn nt now session db)) =
     (Some {| supplier := sp; document_number := dn; notes := nt |},
      set_reception_items (Some (entries (s_reception_items session))) session2)).
Proof.
  split.
  - intros n sg. unfold save_bill_draft, load_draft_bill.
    destruct (s_bill_items session) as [items|]; cbn; [|reflexivity].
    rewrite filter_owner, items_of_rows_of_items. reflexivity.
  - intros sp dn nt. unfold save_reception_draft, load_draft_reception.
    destruct (s_reception_items session) as [items|]; cbn; [|reflexivity].
    rewrite filter_owner, items_of_rows_of_items. reflexivity.
Qed.

(** C10: with no persisted draft of a type, loading the draft returns
    [None] and the session, both buffers included, is the one passed in;
    with a draft, the load returns its metadata and replaces the buffer of
    that type (and nothing else) by the items of that draft. *)
Theorem load_draft_without_draft session db :
  (t_draft_bill db = [] -> load_draft_bill session db = (None, session))
  /\ (t_draft_reception db = [] ->
      load_draft_reception session db = (None, session))
  /\ (t_draft_bill db <> [] ->
      exists data loaded,
        load_draft_bill session db =
        (Some data, set_bill_items (Some loaded) session))
  /\ (t_draft_reception db <> [] ->
      exists data loaded,
        load_draft_reception session db =
        (Some data, set_reception_items (Some loaded) session)).
Proof.
  unfold load_draft_bill, load_draft_reception. repeat split.
  - intros ->. reflexivity.
  - intros ->. reflexivity.
  - intros Hne.
    destruct (latest_by_some dbill_last_updated _ Hne) as [draft [-> _]].
    eexists. eexists. reflexivity.
  - intros Hne.
    destruct (latest_by_some drec_last_updated _ Hne) as [draft [-> _]].
    eexists. eexists. reflexivity.
Qed.

(** C8: after a finalize request that answers with its success message, the
    draft tables of that type are empty, the buffer of that type is gone
    from the session, and loading the draft of that type, into any session,
    returns [None]. *)
Theorem finalize_clears_draft_and_buffer (faulty : nat -> bool)
    (now : timestamp) session db resp session' db' :
  (forall n sg,
     finalize_consumption_bill faulty n sg now session db = (resp, session', db') ->
     flashed resp = Some (BillFinalized, success) ->
     t_draft_bill db' = [] /\ t_draft_bill_item db' = []
     /\ s_bill_items session' = None
     /\ forall session2, load_draft_bill session2 db' = (None, session2))
  /\
  (forall sp dn nt,
     finalize_reception faulty sp dn nt now session db = (resp, session', db') ->
     flashed resp = Some (ReceptionFinalized, success) ->
     t_draft_reception db' = [] /\ t_draft_reception_item db' = []
     /\ s_reception_items session' = None
     /\ forall session2, load_draft_reception session2 db' = (None, session2)).
Proof.
  split.
  - intros n sg Hrun Hok.
    destruct (finalize_consumption_bill_success _ _ _ _ _ _ _ _ _ Hrun Hok)
      as (_ & _ & -> & ->).
    repeat split.
  - intros sp dn nt Hrun Hok.
    destruct (finalize_reception_success _ _ _ _ _ _ _ _ _ _ Hrun Hok)
      as (_ & _ & -> & ->).
    repeat split.
Qed.

(** ** Transient buffer *)

Lemma product_by_code_code (c : string) rows (product : Product (R:=R)) :
  product_by_code c rows = Some product -> p_code product = c.
Proof.
  intros H. apply find_some in H. destruct H as [_ H].
  apply String.eqb_eq. exact H.
Qed.

(** C6: adding an item fails with the product-not-found error when no
    product has the code; for a bill it fails with the insufficient-stock
    error when the quantity exceeds the quantity of the product, and a
    reception makes no such check; otherwise it appends an entry that copies
    code, name, unit and location from the product, carries the quantity
    asked for, and is numbered with the length of the buffer plus one. *)
Theorem add_item_outcomes (c : string) (q : R) session db :
  (product_by_code c (t_product db) = None ->
   add_bill_item c q session db = (JsonError ProductNotFound 400, session)
   /\ add_reception_item c q session db = (JsonError ProductNotFound 400, session))
  /\
  (forall product,
     product_by_code c (t_product db) = Some product ->
     let entry buffer :=
       {| item_number := len (entries buffer) + 1;
          code := c;
          name := p_name product;
          unit_ := p_unit product;
          quantity := q;
          location := p_location product |} in
     p_code product = c
     /\ (ngt q (p_quantity product) = true ->
         add_bill_item c q session db = (JsonError InsufficientStock 400, session))
     /\ (ngt q (p_quantity product) = false ->
         add_bill_item c q session db =
         (JsonSuccess (entry (s_bill_items session)),
          set_bill_items
            (Some (entries (s_bill_items session) ++ [entry (s_bill_items session)]))
            session))
     /\ add_reception_item c q session db =
        (JsonSuccess (entry (s_reception_items session)),
         set_reception_items
           (Some (entries (s_reception_items session)
                  ++ [entry (s_reception_items session)]))
           session)).
Proof.
  unfold add_bill_item, add_reception_item. split.
  - intros ->. split; reflexivity.
  - intros product Hfind. rewrite Hfind.
    pose proof (product_by_code_code _ _ _ Hfind) as Hcode.
    cbv zeta. rewrite Hcode.
    split; [reflexivity|].
    split; [intros ->; reflexivity|].
    split; [intros ->; destruct (s_bill_items session); reflexivity|].
    destruct (s_reception_items session); reflexivity.
Qed.

Lemma count_from_snoc (n : nat) : forall start,
  count_from start (S n) = count_from start n ++ [start + Z.of_nat n].
Proof.
  induction n as [|n IH]; intros start.
  - cbn. rewrite Z.add_0_r. reflexivity.
  - change (count_from start (S (S n)))
      with (start :: count_from (start + 1) (S n)).
    rewrite IH. cbn [count_from app]. do 3 f_equal. lia.
Qed.

Lemma renumber_from_numbers items : forall start,
  map item_number (renumber_from start items) =
  count_from (start + 1) (List.length items).
Proof.
  induction items as [|item rest IH]; intros start; cbn; [reflexivity|].
  rewrite IH. reflexivity.
Qed.

Lemma renumber_from_snapshot items : forall start,
  map snapshot (renumber_from start items) = map snapshot items.
Proof.
  induction items as [|item rest IH]; intros start; cbn [renumber_from map];
    [reflexivity|].
  rewrite IH. reflexivity.
Qed.

Lemma renumber_from_length items : forall start,
  List.length (renumber_from start items) = List.length items.
Proof.
  induction items as [|item rest IH]; intros start; cbn; [reflexivity|].
  rewrite IH. reflexivity.
Qed.

Lemma split_at {A : Type} (n : nat) : forall l : list A,
  (n < List.length l)%nat ->
  exists x, l = firstn n l ++ x :: skipn (S n) l.
Proof.
  induction n as [|n IH]; intros [|a l] Hlt; cbn in Hlt; try lia.
  - exists a. reflexivity.
  - destruct (IH l) as [x Hx]; [lia|]. exists x.
    change (a :: l = a :: (firstn n l ++ x :: skipn (S n) l)).
    f_equal. exact Hx.
Qed.

(** Removing at a position inside the buffer: the entries before and after
    it survive, in order and with their fields, numbered from 1. *)
Lemma pop_renumber (i : Z) items :
  0 <= i < len items ->
  exists before removed after,
    items = before ++ removed :: after
    /\ len before = i
    /\ map snapshot (renumber (pop i items)) = map snapshot (before ++ after)
    /\ map item_number (renumber (pop i items)) =
       count_from 1 (List.length (before ++ after)).
Proof.
  unfold len. intros Hi.
  destruct (split_at (Z.to_nat i) items) as [x Hx]; [lia|].
  exists (firstn (Z.to_nat i) items), x, (skipn (S (Z.to_nat i)) items).
  split; [exact Hx|]. split.
  - rewrite firstn_length_le; lia.
  - unfold renumber, pop. split.
    + apply renumber_from_snapshot.
    + rewrite renumber_from_numbers. reflexivity.
Qed.

Lemma numbered_append items (item : Item (R:=R)) :
  numbered (Some items) ->
  item_number item = len items + 1 ->
  numbered (Some (items ++ [item])).
Proof.
  unfold numbered, len. intros Hnum Hitem.
  rewrite map_app, length_app, Nat.add_1_r, count_from_snoc, Hnum.
  cbn [map]. rewrite Hitem. do 2 f_equal. lia.
Qed.

Lemma numbered_renumber items : numbered (Some (renumber items)).
Proof.
  unfold numbered, renumber.
  rewrite renumber_from_numbers, renumber_from_length. reflexivity.
Qed.

Lemma numbered_add_bill_item (c : string) (q : R) session db :
  numbered (s_bill_items session) ->
  numbered (s_bill_items (snd (add_bill_item c q session db)))
  /\ s_reception_items (snd (add_bill_item c q session db)) =
     s_reception_items session.
Proof.
  intros Hnum. unfold add_bill_item.
  destruct (product_by_code c (t_product db)) as [p|]; [|cbn; auto].
  destruct (ngt q (p_quantity p)); [cbn; auto|].
  cbn [snd set_bill_items s_bill_items s_reception_items]. split; [|reflexivity].
  apply numbered_append; [|reflexivity].
  destruct (s_bill_items session); [exact Hnum | reflexivity].
Qed.

Lemma numbered_add_reception_item (c : string) (q : R) session db :
  numbered (s_reception_items session) ->
  numbered (s_reception_items (snd (add_reception_item c q session db)))
  /\ s_bill_items (snd (add_reception_item c q session db)) =
     s_bill_items session.
Proof.
  intros Hnum. unfold add_reception_item.
  destruct (product_by_code c (t_product db)) as [p|]; [|cbn; auto].
  cbn [snd set_reception_items s_bill_items s_reception_items].
  split; [|reflexivity].
  apply numbered_append; [|reflexivity].
  destruct (s_reception_items session); [exact Hnum | reflexivity].
Qed.

Lemma numbered_remove_bill_item (i : Z) session :
  numbered (s_bill_items session) ->
  numbered (s_bill_items (snd (remove_bill_item i session)))
  /\ s_reception_items (snd (remove_bill_item i session)) =
     s_reception_items session.
Proof.
  intros Hnum. unfold remove_bill_item.
  destruct (s_bill_items session) as [items|] eqn:Hbuf;
    [|cbn; rewrite Hbuf; auto].
  destruct ((0 <=? i) && (i <? len items)); cbn; [|rewrite Hbuf; auto].
  split; [apply numbered_renumber | reflexivity].
Qed.

Lemma numbered_remove_reception_item (i : Z) session :
  numbered (s_reception_items session) ->
  numbered (s_reception_items (snd (remove_reception_item i session)))
  /\ s_bill_items (snd (remove_reception_item i session)) =
     s_bill_items session.
Proof.
  intros Hnum. unfold remove_reception_item.
  destruct (s_reception_items session) as [items|] eqn:Hbuf;
    [|cbn; rewrite Hbuf; auto].
  destruct ((0 <=? i) && (i <? len items)); cbn; [|rewrite Hbuf; auto].
  split; [apply numbered_renumber | reflexivity].
Qed.

Lemma numbered_run reqs : forall st : Session * Database,
  forallb is_buffer_request reqs = true ->
  numbered (s_bill_items (fst st)) ->
  numbered (s_reception_items (fst st)) ->
  numbered (s_bill_items (fst (run reqs st)))
  /\ numbered (s_reception_items (fst (run reqs st))).
Proof.
  induction reqs as [|req rest IH]; intros [session db] Hreqs Hb Hr;
    [split; assumption|].
  cbn [forallb] in Hreqs. apply andb_true_iff in Hreqs.
  destruct Hreqs as [Hreq Hrest].
  unfold run. cbn [fold_left]. apply (IH _ Hrest);
    destruct req as [c q|i|? ? ?| |? ? ? ?|c q|i|? ? ? ?| |? ? ? ? ?];
    try discriminate Hreq; cbn [handle fst] in *.
  - apply numbered_add_bill_item; assumption.
  - apply numbered_remove_bill_item; assumption.
  - destruct (numbered_add_reception_item c q session db Hr) as [_ ->].
    assumption.
  - destruct (numbered_remove_reception_item i session Hr) as [_ ->].
    assumption.
  - destruct (numbered_add_bill_item c q session db Hb) as [_ ->].
    assumption.
  - destruct (numbered_remove_bill_item i session Hb) as [_ ->].
    assumption.
  - apply numbered_add_reception_item; assumption.
  - apply numbered_remove_reception_item; assumption.
Qed.

(** C7: a sequence of add-item and remove-item requests keeps the sequence
    numbers of both buffers equal to 1..n in list order (from buffers that
    are absent, empty or so numbered); removing at an index outside the
    buffer changes nothing; removing at an index inside it drops the entry
    at that position and leaves the others in their order, with their
    fields, numbered from 1. *)
Theorem buffer_numbers_contiguous :
  (forall reqs (st : Session * Database),
     forallb is_buffer_request reqs = true ->
     numbered (s_bill_items (fst st)) ->
     numbered (s_reception_items (fst st)) ->
     numbered (s_bill_items (fst (run reqs st)))
     /\ numbered (s_reception_items (fst (run reqs st))))
  /\
  (forall i session,
     ~ (0 <= i < len (entries (s_bill_items session))) ->
     remove_bill_item i session =
     (FlashRedirect None to_create_consumption_bill, session))
  /\
  (forall i session,
     ~ (0 <= i < len (entries (s_reception_items session))) ->
     remove_reception_item i session =
     (FlashRedirect None to_create_reception, session))
  /\
  (forall i session items,
     s_bill_items session = Some items ->
     0 <= i < len items ->
     exists before removed after kept,
       items = before ++ removed :: after
       /\ len before = i
       /\ remove_bill_item i session =
          (FlashRedirect (Some (ItemRemoved, success)) to_create_consumption_bill,
           set_bill_items (Some kept) session)
       /\ map snapshot kept = map snapshot (before ++ after)
       /\ map item_number kept = count_from 1 (List.length (before ++ after)))
  /\
  (forall i session items,
     s_reception_items session = Some items ->
     0 <= i < len items ->
     exists before removed after kept,
       items = before ++ removed :: after
       /\ len before = i
       /\ remove_reception_item i session =
          (FlashRedirect (Some (ItemRemoved, success)) to_create_reception,
           set_reception_items (Some kept) session)
       /\ map snapshot kept = map snapshot (before ++ after)
       /\ map item_number kept = count_from 1 (List.length (before ++ after))).
Proof.
  split; [exact numbered_run|].
  split; [|split; [|split]].
  - intros i session Hout. unfold remove_bill_item.
    destruct (s_bill_items session) as [items|]; [|reflexivity].
    cbn [entries] in Hout.
    destruct ((0 <=? i) && (i <? len items)) eqn:Hin; [|reflexivity].
    apply andb_true_iff in Hin. destruct Hin as [H0 H1].
    apply Z.leb_le in H0. apply Z.ltb_lt in H1. lia.
  - intros i session Hout. unfold remove_reception_item.
    destruct (s_reception_items session) as [items|]; [|reflexivity].
    cbn [entries] in Hout.
    destruct ((0 <=? i) && (i <? len items)) eqn:Hin; [|reflexivity].
    apply andb_true_iff in Hin. destruct Hin as [H0 H1].
    apply Z.leb_le in H0. apply Z.ltb_lt in H1. lia.
  - intros i session items Hbuf Hi.
    destruct (pop_renumber i items Hi) as (before & removed & after & H).
    exists before, removed, after, (renumber (pop i items)).
    destruct H as (Hsplit & Hlen & Hsnap & Hnum).
    repeat (split; [assumption|]). split; [|split; assumption].
    unfold remove_bill_item. rewrite Hbuf.
    replace ((0 <=? i) && (i <? len items)) with true; [reflexivity|].
    symmetry. apply andb_true_iff. split; [apply Z.leb_le | apply Z.ltb_lt]; lia.
  - intros i session items Hbuf Hi.
    destruct (pop_renumber i items Hi) as (before & removed & after & H).
    exists before, removed, after, (renumber (pop i items)).
    destruct H as (Hsplit & Hlen & Hsnap & Hnum).
    repeat (split; [assumption|]). split; [|split; assumption].
    unfold remove_reception_item. rewrite Hbuf.
    replace ((0 <=? i) && (i <? len items)) with true; [reflexivity|].
    symmetry. apply andb_true_iff. split; [apply Z.leb_le | apply Z.ltb_lt]; lia.
Qed.

(** ** Stock adjustments *)

Lemma write_product_lookup (c c' : string) (product' : Product (R:=R)) rows :
  p_code product' = c' ->
  product_by_code c (write_product c' product' rows) =
  match product_by_code c' rows with
  | Some _ => if String.eqb c' c then Some product' else product_by_code c rows
  | None => product_by_code c rows
  end.
Proof.
  intros Hcode. unfold product_by_code.
  induction rows as [|r rest IH]; cbn [find write_product]; [reflexivity|].
  destruct (String.eqb (p_code r) c') eqn:Hr.
  - cbn [find]. rewrite Hcode. apply String.eqb_eq in Hr. rewrite Hr.
    destruct (String.eqb c' c); reflexivity.
  - cbn [find]. rewrite IH.
    destruct (String.eqb (p_code r) c) eqn:Hrc.
    + apply String.eqb_eq in Hrc. subst c.
      rewrite String.eqb_sym, Hr.
      destruct (find (fun p => String.eqb (p_code p) c') rest); reflexivity.
    + reflexivity.
Qed.

(** The product a code denotes after one entry has been processed. *)
Lemma stock_step_lookup (op : R -> R -> R) (now : timestamp) rows
    (item : Item (R:=R)) (c : string) :
  product_by_code c (stock_step op now rows item) =
  match product_by_code c rows with
  | Some product =>
      Some (if String.eqb (code item) c
            then set_quantity (op (p_quantity product) (quantity item)) now product
            else product)
  | None => None
  end.
Proof.
  unfold stock_step.
  destruct (product_by_code (code item) rows) as [p|] eqn:Hp.
  - rewrite write_product_lookup, Hp
      by (cbn; exact (product_by_code_code _ _ _ Hp)).
    destruct (String.eqb (code item) c) eqn:Hc.
    + apply String.eqb_eq in Hc. subst c. rewrite Hp. reflexivity.
    + destruct (product_by_code c rows); reflexivity.
  - destruct (String.eqb (code item) c) eqn:Hc.
    + apply String.eqb_eq in Hc. subst c. rewrite Hp. reflexivity.
    + destruct (product_by_code c rows); reflexivity.
Qed.

(** The quantity of a product after the loop: the entries that carry its
    code are subtracted (added) one after the other, in buffer order. *)
Lemma apply_stock_quantity (op : R -> R -> R) (now : timestamp) items :
  forall rows (c : string),
  option_map p_quantity (product_by_code c (apply_stock op now items rows)) =
  option_map
    (fun product =>
       fold_left op (map quantity (entries_of c items)) (p_quantity product))
    (product_by_code c rows).
Proof.
  unfold apply_stock.
  induction items as [|item rest IH]; intros rows c; cbn [fold_left].
  - destruct (product_by_code c rows); reflexivity.
  - rewrite IH, stock_step_lookup. cbn [entries_of filter].
    destruct (product_by_code c rows) as [p|]; [|reflexivity].
    destruct (String.eqb (code item) c); reflexivity.
Qed.

Lemma stock_step_codes (op : R -> R -> R) (now : timestamp) rows
    (item : Item (R:=R)) :
  map p_code (stock_step op now rows item) = map p_code rows.
Proof.
  unfold stock_step.
  destruct (product_by_code (code item) rows) as [p|] eqn:Hp; [|reflexivity].
  apply product_by_code_code in Hp. clear - Hp.
  induction rows as [|r rest IH]; cbn [write_product map]; [reflexivity|].
  destruct (String.eqb (p_code r) (code item)) eqn:Hr.
  - cbn [map set_quantity p_code]. apply String.eqb_eq in Hr. congruence.
  - cbn [map]. rewrite IH. reflexivity.
Qed.

Lemma apply_stock_codes (op : R -> R -> R) (now : timestamp) items :
  forall rows, map p_code (apply_stock op now items rows) = map p_code rows.
Proof.
  unfold apply_stock.
  induction items as [|item rest IH]; intros rows; cbn [fold_left];
    [reflexivity|].
  rewrite IH. apply stock_step_codes.
Qed.

Lemma stock_after (op : R -> R -> R) (now : timestamp) items db db' :
  t_product db' = apply_stock op now items (t_product db) ->
  forall c,
    stock_of c db' =
    option_map (fun q0 => fold_left op (map quantity (entries_of c items)) q0)
      (stock_of c db).
Proof.
  intros Hrows c. unfold stock_of. rewrite Hrows, apply_stock_quantity.
  destruct (product_by_code c (t_product db)); reflexivity.
Qed.

(** C2 (amended): after a finalize request that answers with its success
    message, every entry of the buffer is a line item of the new document,
    whether its product exists or not; the catalog has the same products;
    the quantity of the product a code denotes is its old quantity with the
    quantities of the entries carrying that code subtracted (bill) or added
    (reception) one after the other in buffer order, each time with the
    subtraction or addition of the handlers' arithmetic, so it is the result
    of that one operation for an entry that is alone with its code; and a
    code without product still has none. *)
Theorem finalize_adjusts_stock (faulty : nat -> bool) (now : timestamp)
    session db resp session' db' :
  (forall n sg,
     finalize_consumption_bill faulty n sg now session db = (resp, session', db') ->
     flashed resp = Some (BillFinalized, success) ->
     let items := entries (s_bill_items session) in
     (exists bill_id,
        t_bill_item db' = t_bill_item db ++ map (row_of_item bill_id) items)
     /\ map p_code (t_product db') = map p_code (t_product db)
     /\ (forall c,
           stock_of c db' =
           option_map
             (fun q0 => fold_left nsub (map quantity (entries_of c items)) q0)
             (stock_of c db))
     /\ (forall item q0,
           entries_of (code item) items = [item] ->
           stock_of (code item) db = Some q0 ->
           stock_of (code item) db' = Some (nsub q0 (quantity item)))
     /\ (forall c, stock_of c db = None -> stock_of c db' = None))
  /\
  (forall sp dn nt,
     finalize_reception faulty sp dn nt now session db = (resp, session', db') ->
     flashed resp = Some (ReceptionFinalized, success) ->
     let items := entries (s_reception_items session) in
     (exists reception_id,
        t_reception_item db' =
        t_reception_item db ++ map (row_of_item reception_id) items)
     /\ map p_code (t_product db') = map p_code (t_product db)
     /\ (forall c,
           stock_of c db' =
           option_map
             (fun q0 => fold_left nadd (map quantity (entries_of c items)) q0)
             (stock_of c db))
     /\ (forall item q0,
           entries_of (code item) items = [item] ->
           stock_of (code item) db = Some q0 ->
           stock_of (code item) db' = Some (nadd q0 (quantity item)))
     /\ (forall c, stock_of c db = None -> stock_of c db' = None)).
Proof.
  split.
  - intros n sg Hrun Hok items.
    destruct (finalize_consumption_bill_success _ _ _ _ _ _ _ _ _ Hrun Hok)
      as (_ & _ & _ & Hdb).
    assert (Hrows : t_product db' = apply_stock nsub now items (t_product db))
      by (rewrite Hdb; reflexivity).
    pose proof (stock_after nsub now items db db' Hrows) as Hstock.
    split; [eexists; rewrite Hdb; reflexivity|].
    split; [rewrite Hrows; apply apply_stock_codes|].
    split; [exact Hstock|].
    split.
    + intros item q0 Honly Hq0. rewrite Hstock, Honly, Hq0. reflexivity.
    + intros c Hnone. rewrite Hstock, Hnone. reflexivity.
  - intros sp dn nt Hrun Hok items.
    destruct (finalize_reception_success _ _ _ _ _ _ _ _ _ _ Hrun Hok)
      as (_ & _ & _ & Hdb).
    assert (Hrows : t_product db' = apply_stock nadd now items (t_product db))
      by (rewrite Hdb; reflexivity).
    pose proof (stock_after nadd now items db db' Hrows) as Hstock.
    split; [eexists; rewrite Hdb; reflexivity|].
    split; [rewrite Hrows; apply apply_stock_codes|].
    split; [exact Hstock|].
    split.
    + intros item q0 Honly Hq0. rewrite Hstock, Honly, Hq0. reflexivity.
    + intros c Hnone. rewrite Hstock, Hnone. reflexivity.
Qed.

(** ** Quantities of line items *)

Lemma positive_renumber_from items : forall start,
  Forall item_positive items -> Forall item_positive (renumber_from start items).
Proof.
  induction items as [|item rest IH]; intros start H; cbn [renumber_from];
    [constructor|].
  inversion H; subst. constructor; [assumption | apply IH; assumption].
Qed.

Lemma positive_pop (i : Z) items :
  Forall item_positive items -> Forall item_positive (pop i items).
Proof.
  unfold pop. generalize (Z.to_nat i) as n. intros n. revert items.
  induction n as [|n IH]; intros [|item rest] H; cbn [firstn skipn app];
    try assumption.
  - inversion H; assumption.
  - inversion H; subst. constructor; [assumption | apply IH; assumption].
Qed.

Lemma positive_rows_of_items (owner : Z) items :
  Forall item_positive items ->
  Forall row_positive (map (row_of_item owner) items).
Proof.
  intros H. apply Forall_map. exact H.
Qed.

Lemma positive_items_of_rows (keep : ItemRow (R:=R) -> bool) (table : list ItemRow) :
  Forall row_positive table ->
  Forall item_positive (map item_of_row (filter keep table)).
Proof.
  intros H. apply Forall_map. rewrite Forall_forall in *.
  intros row Hin. apply filter_In in Hin. apply H. tauto.
Qed.

(** Closes one conjunct of [quantities_positive] after a handler ran. *)
Ltac positivity :=
  cbn [entries] in *;
  try match goal with
      | |- context [row_of_item ?o ?x :: map (row_of_item ?o) ?l] =>
          change (row_of_item o x :: map (row_of_item o) l)
            with (map (row_of_item o) (x :: l))
      end;
  first
    [ assumption
    | constructor; fail
    | apply positive_rows_of_items; assumption
    | apply positive_items_of_rows; assumption
    | apply positive_renumber_from, positive_pop; assumption
    | apply Forall_app; split;
      [ assumption
      | first [ apply positive_rows_of_items; assumption
              | constructor; [assumption | constructor] ] ] ].

(** Every handler keeps the quantities positive when the quantity it is
    asked to add, if any, is positive. *)
Lemma handle_positive (req : request) (st : Session * Database) :
  asks_positive req -> quantities_positive st ->
  quantities_positive (handle req st).
Proof.
  destruct st as [session db]. intros Hreq (Hb & Hr & Hbi & Hri & Hdb & Hdr).
  destruct req as [c q|i|n sg now| |n sg now faulty
                  |c q|i|sp dn nt now| |sp dn nt now faulty];
    cbn [handle asks_positive] in *.
  - unfold add_bill_item.
    destruct (product_by_code c (t_product db)) as [p|];
      [destruct (ngt q (p_quantity p))|]; cbn; repeat split; positivity.
  - unfold remove_bill_item.
    destruct (s_bill_items session) as [items|] eqn:Hbuf;
      [destruct ((0 <=? i) && (i <? len items))|]; cbn; try rewrite Hbuf;
      repeat split; positivity.
  - unfold save_bill_draft.
    destruct (s_bill_items session) as [items|] eqn:Hbuf; cbn;
      try rewrite Hbuf; repeat split; positivity.
  - unfold load_draft_bill.
    destruct (latest_by dbill_last_updated (t_draft_bill db)); cbn;
      repeat split; positivity.
  - rewrite finalize_consumption_bill_cases.
    destruct (str_empty (strip n)); [repeat split; assumption|].
    destruct (s_bill_items session) as [[|item rest]|] eqn:Hbuf; cbn [entries];
      try (cbn; rewrite Hbuf; repeat split; positivity).
    destruct (find faulty (seq 0 (List.length (item :: rest) + 4)));
      cbn; try rewrite Hbuf; repeat split; positivity.
  - unfold add_reception_item.
    destruct (product_by_code c (t_product db)) as [p|]; cbn;
      repeat split; positivity.
  - unfold remove_reception_item.
    destruct (s_reception_items session) as [items|] eqn:Hbuf;
      [destruct ((0 <=? i) && (i <? len items))|]; cbn; try rewrite Hbuf;
      repeat split; positivity.
  - unfold save_reception_draft.
    destruct (s_reception_items session) as [items|] eqn:Hbuf; cbn;
      try rewrite Hbuf; repeat split; positivity.
  - unfold load_draft_reception.
    destruct (latest_by drec_last_updated (t_draft_reception db)); cbn;
      repeat split; positivity.
  - rewrite finalize_reception_cases.
    destruct (str_empty (strip sp)); [repeat split; assumption|].
    destruct (s_reception_items session) as [[|item rest]|] eqn:Hbuf;
      cbn [entries];
      try (cbn; rewrite Hbuf; repeat split; positivity).
    destruct (find faulty (seq 0 (List.length (item :: rest) + 4)));
      cbn; try rewrite Hbuf; repeat split; positivity.
Qed.

(** C9 (amended): the handlers make no check of the sign of a quantity;
    what holds is that, over any sequence of add-item, remove-item,
    save-draft, load-draft and finalize requests in which every add-item
    request asks for a positive quantity, every buffer entry, draft line item
    and recorded line item keeps a positive quantity. *)
Theorem positive_quantities_preserved (reqs : list request)
    (st : Session * Database) :
  Forall asks_positive reqs ->
  quantities_positive st ->
  quantities_positive (run reqs st).
Proof.
  revert st. unfold run.
  induction reqs as [|req rest IH]; intros st Hreqs Hst; cbn [fold_left];
    [exact Hst|].
  inversion Hreqs; subst. apply IH; [assumption|].
  apply handle_positive; assumption.
Qed.

End Properties.

(** * The scenario of product "A1" and other concrete runs *)

Lemma find_no_fault (faulty : nat -> bool) (n : nat) :
  (forall k, (k < n)%nat -> faulty k = false) ->
  find faulty (seq 0 n) = None.
Proof.
  intros H. destruct (find faulty (seq 0 n)) as [j|] eqn:Hfind; [|reflexivity].
  apply find_some in Hfind. destruct Hfind as [Hin Hj].
  apply in_seq in Hin. rewrite H in Hj by lia. discriminate Hj.
Qed.

(** C4 (counterexample): with "A1" at 10 in stock and 4 of it pending, the
    request for 10 more is accepted, and finalizing the two entries leaves
    the product at -4. *)
Lemma scenario_A1_second_add_accepted :
  let session1 := snd (add_bill_item "A1" 4%float fresh_session catalog_A1) in
  fst (add_bill_item "A1" 4%float fresh_session catalog_A1) =
    JsonSuccess (entry_A1 1 4%float)
  /\ add_bill_item "A1" 10%float session1 catalog_A1 =
     (JsonSuccess (entry_A1 2 10%float),
      set_bill_items (Some [entry_A1 1 4%float; entry_A1 2 10%float]) fresh_session)
  /\ add_bill_item "A1" 10%float session1 catalog_A1 <>
     (JsonError InsufficientStock 400, session1).
Proof.
  cbv zeta. split; [reflexivity|]. split; [reflexivity|].
  intros H. vm_compute in H. discriminate H.
Qed.

(** C4 (amended): in a catalog where "A1" denotes a product with quantity
    10, and from a session whose bill buffer is absent or empty: adding 4
    of "A1" succeeds; a further request for [q] of "A1" is refused for
    insufficient stock exactly when [q] exceeds 10, the catalog quantity,
    whatever is pending, so that 10 more is accepted and 11 is refused; and
    finalizing the bill that holds the first entry, with an employee name
    that is not blank and no failing statement, succeeds and leaves the
    product at 6. *)
Theorem scenario_A1 (db : Database (R:=float)) (product : Product)
    (session : Session) (faulty : nat -> bool) (n sg : string) (now : timestamp) :
  product_by_code "A1" (t_product db) = Some product ->
  p_quantity product = 10%float ->
  entries (s_bill_items session) = [] ->
  str_empty (strip n) = false ->
  (forall k, (k < 5)%nat -> faulty k = false) ->
  let entry number q :=
    {| item_number := number; code := "A1"; name := p_name product;
       unit_ := p_unit product; quantity := q; location := p_location product |} in
  let session1 := set_bill_items (Some [entry 1 4%float]) session in
  add_bill_item "A1" 4%float session db = (JsonSuccess (entry 1 4%float), session1)
  /\ (forall q,
        add_bill_item "A1" q session1 db =
        if PrimFloat.ltb 10 q
        then (JsonError InsufficientStock 400, session1)
        else (JsonSuccess (entry 2 q),
              set_bill_items (Some [entry 1 4%float; entry 2 q]) session1))
  /\ add_bill_item "A1" 10%float session1 db =
     (JsonSuccess (entry 2 10%float),
      set_bill_items (Some [entry 1 4%float; entry 2 10%float]) session1)
  /\ add_bill_item "A1" 11%float session1 db =
     (JsonError InsufficientStock 400, session1)
  /\ exists db',
       finalize_consumption_bill faulty n sg now session1 db =
       (FlashRedirect (Some (BillFinalized, success)) to_consumption_bills,
        set_bill_items None session1, db')
       /\ stock_of "A1" db' = Some 6%float.
Proof.
  intros Hfind Hq Hbuf Hn Hfaults entry session1.
  pose proof (product_by_code_code _ _ _ Hfind) as Hcode.
  assert (Hadd : forall q,
    add_bill_item "A1" q session1 db =
    if PrimFloat.ltb 10 q
    then (JsonError InsufficientStock 400, session1)
    else (JsonSuccess (entry 2 q),
          set_bill_items (Some [entry 1 4%float; entry 2 q]) session1)).
  { intros q. unfold add_bill_item. rewrite Hfind, Hq. cbn [ngt float_Num].
    destruct (PrimFloat.ltb 10 q); [reflexivity|].
    subst entry. cbn. rewrite Hcode. reflexivity. }
  split.
  { unfold add_bill_item. rewrite Hfind, Hq.
    change (match s_bill_items session with
            | Some items => items
            | None => []
            end) with (entries (s_bill_items session)).
    rewrite Hbuf. subst session1 entry. cbn. rewrite Hcode. reflexivity. }
  split; [exact Hadd|].
  split; [exact (Hadd 10%float)|].
  split; [exact (Hadd 11%float)|].
  eexists. split.
  - rewrite finalize_consumption_bill_cases, Hn. subst session1. cbn [entries
      s_bill_items set_bill_items].
    rewrite (find_no_fault faulty (List.length [entry 1 4%float] + 4) Hfaults).
    reflexivity.
  - rewrite (stock_after nsub now [entry 1 4%float] db) by reflexivity.
    unfold stock_of. rewrite Hfind. cbn. rewrite Hq. reflexivity.
Qed.

Lemma scenario_A1_witness :
  exists db',
    finalize_consumption_bill no_faults "Ana Pop" "AP" 5
      (set_bill_items (Some [entry_A1 1 4%float]) fresh_session) catalog_A1 =
    (FlashRedirect (Some (BillFinalized, success)) to_consumption_bills,
     set_bill_items None
       (set_bill_items (Some [entry_A1 1 4%float]) fresh_session), db')
    /\ stock_of "A1" db' = Some 6%float.
Proof.
  apply (scenario_A1 catalog_A1 product_A1 fresh_session no_faults "Ana Pop" "AP" 5).
  - reflexivity.
  - reflexivity.
  - reflexivity.
  - reflexivity.
  - intros k _. reflexivity.
Defined.

(** C3 (counterexample): on an empty buffer and a blank employee name the
    bill handler answers with the missing-name message, not with the
    empty-document one. *)
Lemma finalize_empty_buffer_blank_name :
  entries (s_bill_items (fresh_session (R:=float))) = []
  /\ finalize_consumption_bill no_faults "  " "" 5 fresh_session catalog_A1 =
     (FlashRedirect (Some (EmployeeNameRequired, error)) to_create_consumption_bill,
      fresh_session, catalog_A1)
  /\ finalize_consumption_bill no_faults "  " "" 5 fresh_session catalog_A1 <>
     (FlashRedirect (Some (NoBillItems, error)) to_create_consumption_bill,
      fresh_session, catalog_A1).
Proof.
  split; [reflexivity|]. split; [reflexivity|].
  intros H. vm_compute in H. discriminate H.
Qed.

Lemma finalize_empty_buffer_witness :
  finalize_consumption_bill no_faults "Ana Pop" "" 5 fresh_session catalog_A1 =
  (FlashRedirect (Some (NoBillItems, error)) to_create_consumption_bill,
   fresh_session, catalog_A1)
  /\ finalize_reception no_faults "" "" "" 5 fresh_session catalog_A1 =
     (FlashRedirect (Some (SupplierRequired, error)) to_create_reception,
      fresh_session, catalog_A1).
Proof.
  destruct (finalize_empty_buffer no_faults 5 fresh_session catalog_A1)
    as [Hbill Hreception].
  split.
  - apply (Hbill "Ana Pop" ""). reflexivity.
  - apply (Hreception "" "" ""). reflexivity.
Defined.

(** C9 (counterexample): a request for -3 of "A1" is accepted, and the
    finalize that follows records a line item with quantity -3. *)
Lemma negative_quantity_recorded :
  let st := run [AddBillItem "A1" (-3)%float;
                 FinalizeConsumptionBill "Ana Pop" "" 5 no_faults]
              (fresh_session, catalog_A1) in
  quantities_positive (fresh_session, catalog_A1)
  /\ map r_quantity (t_bill_item (snd st)) = [(-3)%float]
  /\ ~ quantities_positive st.
Proof.
  cbv zeta. split; [|split].
  - cbn. repeat split; constructor.
  - reflexivity.
  - intros (_ & _ & Hrows & _).
    vm_compute in Hrows. inversion Hrows as [|row rows Hrow Hrest]; subst.
    discriminate Hrow.
Qed.

(** ** Concrete instances of the general statements *)

Lemma finalize_failure_rolls_back_witness :
  let session1 := set_bill_items (Some [entry_A1 1 4%float]) fresh_session in
  fault_at 2 2 = true
  /\ exists j,
       fault_at 2 j = true /\
       finalize_consumption_bill (fault_at 2) "Ana Pop" "" 5 session1 catalog_A1 =
       (FlashRedirect (Some (BillFinalizeError (DatabaseError j), error))
          to_create_consumption_bill, session1, catalog_A1).
Proof.
  intros session1. split; [reflexivity|].
  destruct (finalize_failure_rolls_back (fault_at 2) 2 5 session1 catalog_A1
              eq_refl) as [Hbill _].
  apply (Hbill "Ana Pop" "" (entry_A1 1 4%float) []).
  - reflexivity.
  - reflexivity.
  - cbn. lia.
Defined.

Lemma finalize_adjusts_stock_witness :
  let out := finalize_consumption_bill no_faults "Ana Pop" "" 5 session_mixed
               catalog_two in
  let out' := finalize_reception no_faults "Depozit" "F-17" "" 5 session_mixed
                catalog_two in
  flashed (fst (fst out)) = Some (BillFinalized, success)
  /\ stock_of "A1" (snd out) = Some 3%float
  /\ stock_of "B2" (snd out) = Some 3%float
  /\ stock_of "C3" (snd out) = None
  /\ List.length (t_bill_item (snd out)) = 4%nat
  /\ flashed (fst (fst out')) = Some (ReceptionFinalized, success)
  /\ stock_of "A1" (snd out') = Some 17%float
  /\ stock_of "B2" (snd out') = Some 7%float.
Proof.
  intros out out'.
  destruct (finalize_adjusts_stock no_faults 5 session_mixed catalog_two
              (fst (fst out)) (snd (fst out)) (snd out)) as [Hbill _].
  destruct (finalize_adjusts_stock no_faults 5 session_mixed catalog_two
              (fst (fst out')) (snd (fst out')) (snd out')) as [_ Hreception].
  assert (Hrun : finalize_consumption_bill no_faults "Ana Pop" "" 5 session_mixed
                   catalog_two = (fst (fst out), snd (fst out), snd out))
    by (vm_compute; reflexivity).
  assert (Hok : flashed (fst (fst out)) = Some (BillFinalized, success))
    by (vm_compute; reflexivity).
  assert (Hrun' : finalize_reception no_faults "Depozit" "F-17" "" 5
                    session_mixed catalog_two =
                  (fst (fst out'), snd (fst out'), snd out'))
    by (vm_compute; reflexivity).
  assert (Hok' : flashed (fst (fst out')) = Some (ReceptionFinalized, success))
    by (vm_compute; reflexivity).
  specialize (Hbill "Ana Pop" "" Hrun Hok). cbv zeta in Hbill.
  destruct Hbill as (Hrecorded & _ & Hstock & Halone & Hnone).
  specialize (Hreception "Depozit" "F-17" "" Hrun' Hok').
  cbv zeta in Hreception.
  destruct Hreception as (_ & _ & Hstock' & Halone' & _).
  split; [exact Hok|].
  split; [rewrite Hstock; vm_compute; reflexivity|].
  split; [apply (Halone entry_B2 5%float); vm_compute; reflexivity|].
  split; [apply Hnone; vm_compute; reflexivity|].
  split; [destruct Hrecorded as [bill_id ->]; reflexivity|].
  split; [exact Hok'|].
  split; [rewrite Hstock'; vm_compute; reflexivity|].
  apply (Halone' entry_B2 5%float); vm_compute; reflexivity.
Defined.

(** C2 (counterexample): with "A1" at 1e16 in stock, a bill of 1 of "A1" is
    accepted and finalized, and the quantity of the product is 1e16 as
    before: it has not changed by the quantity of the entry, and the total
    over the catalog has changed by 0, not by the signed quantity -1. *)
Lemma finalize_adjustment_rounds :
  let added := add_bill_item "A1" 1%float fresh_session catalog_big in
  let items := entries (s_bill_items (snd added)) in
  let out := finalize_consumption_bill no_faults "Ana Pop" "" 5 (snd added)
               catalog_big in
  map quantity (with_stock catalog_big items) = [1%float]
  /\ flashed (fst (fst out)) = Some (BillFinalized, success)
  /\ stock_of "A1" catalog_big = Some 1e16%float
  /\ stock_of "A1" (snd out) = Some 1e16%float
  /\ nsub (total_stock (snd out)) (total_stock catalog_big) = 0%float
  /\ nsub nzero (sum (map quantity (with_stock catalog_big items))) = (-1)%float
  /\ nsub (total_stock (snd out)) (total_stock catalog_big) <>
     nsub nzero (sum (map quantity (with_stock catalog_big items))).
Proof.
  cbv zeta. repeat (split; [vm_compute; reflexivity|]).
  intros H. apply (f_equal (fun x => PrimFloat.eqb x 0%float)) in H.
  vm_compute in H. discriminate H.
Qed.

Lemma add_item_outcomes_witness :
  add_bill_item "Z9" 1%float fresh_session catalog_A1 =
    (JsonError ProductNotFound 400, fresh_session)
  /\ add_bill_item "A1" 11%float fresh_session catalog_A1 =
     (JsonError InsufficientStock 400, fresh_session)
  /\ add_bill_item "A1" 4%float fresh_session catalog_A1 =
     (JsonSuccess (entry_A1 1 4%float),
      set_bill_items (Some [entry_A1 1 4%float]) fresh_session)
  /\ add_reception_item "A1" 11%float fresh_session catalog_A1 =
     (JsonSuccess (entry_A1 1 11%float),
      set_reception_items (Some [entry_A1 1 11%float]) fresh_session).
Proof.
  split.
  { destruct (add_item_outcomes "Z9" 1%float fresh_session catalog_A1)
      as [Hmissing _].
    apply Hmissing. reflexivity. }
  split.
  { destruct (add_item_outcomes "A1" 11%float fresh_session catalog_A1)
      as [_ Hfound].
    destruct (Hfound product_A1 eq_refl) as (_ & Hrefused & _).
    apply Hrefused. reflexivity. }
  split.
  { destruct (add_item_outcomes "A1" 4%float fresh_session catalog_A1)
      as [_ Hfound].
    destruct (Hfound product_A1 eq_refl) as (_ & _ & Haccepted & _).
    apply Haccepted. reflexivity. }
  destruct (add_item_outcomes "A1" 11%float fresh_session catalog_A1)
    as [_ Hfound].
  destruct (Hfound product_A1 eq_refl) as (_ & _ & _ & Hreception).
  exact Hreception.
Defined.

Lemma buffer_numbers_contiguous_witness :
  let reqs := [AddBillItem "A1" 1%float; AddBillItem "A1" 2%float;
               AddBillItem "A1" 3%float; RemoveBillItem 0;
               AddReceptionItem "A1" 7%float; RemoveBillItem 5] in
  let session := fst (run reqs (fresh_session, catalog_A1)) in
  numbered (s_bill_items session)
  /\ numbered (s_reception_items session)
  /\ s_bill_items session = Some [entry_A1 1 2%float; entry_A1 2 3%float]
  /\ remove_bill_item 2 session =
     (FlashRedirect None to_create_consumption_bill, session).
Proof.
  intros reqs session.
  destruct (buffer_numbers_contiguous (R:=float))
    as (Hrun & Hout & _).
  destruct (Hrun reqs (fresh_session, catalog_A1) eq_refl I I) as [Hb Hr].
  split; [exact Hb|]. split; [exact Hr|]. split; [reflexivity|].
  apply Hout. cbn. lia.
Defined.

Lemma finalize_clears_draft_and_buffer_witness :
  let session1 := set_bill_items (Some [entry_A1 1 4%float]) fresh_session in
  let drafted := snd (save_bill_draft "Ana Pop" "" 3 session1 catalog_A1) in
  let out := finalize_consumption_bill no_faults "Ana Pop" "" 5 session1 drafted in
  List.length (t_draft_bill drafted) = 1%nat
  /\ flashed (fst (fst out)) = Some (BillFinalized, success)
  /\ t_draft_bill (snd out) = []
  /\ t_draft_bill_item (snd out) = []
  /\ s_bill_items (snd (fst out)) = None
  /\ load_draft_bill session1 (snd out) = (None, session1).
Proof.
  intros session1 drafted out.
  destruct (finalize_clears_draft_and_buffer no_faults 5 session1 drafted
              (fst (fst out)) (snd (fst out)) (snd out)) as [Hbill _].
  assert (Hrun : finalize_consumption_bill no_faults "Ana Pop" "" 5 session1
                   drafted = (fst (fst out), snd (fst out), snd out))
    by (vm_compute; reflexivity).
  assert (Hok : flashed (fst (fst out)) = Some (BillFinalized, success))
    by (vm_compute; reflexivity).
  destruct (Hbill "Ana Pop" "" Hrun Hok) as (Hd & Hdi & Hbuf & Hload).
  split; [vm_compute; reflexivity|]. split; [exact Hok|].
  split; [exact Hd|]. split; [exact Hdi|]. split; [exact Hbuf|].
  apply Hload.
Defined.

Lemma positive_quantities_preserved_witness :
  let reqs := [AddBillItem "A1" 4%float;
               SaveBillDraft "Ana Pop" "" 3;
               RemoveBillItem 0;
               CreateConsumptionBill;
               AddReceptionItem "A1" 2.5%float;
               FinalizeConsumptionBill "Ana Pop" "" 5 no_faults;
               FinalizeReception "Depozit" "F-17" "" 6 no_faults] in
  Forall asks_positive reqs
  /\ quantities_positive (run reqs (fresh_session, catalog_A1)).
Proof.
  intros reqs.
  assert (Hreqs : Forall asks_positive reqs)
    by (repeat constructor).
  split; [exact Hreqs|].
  apply (positive_quantities_preserved reqs (fresh_session, catalog_A1) Hreqs).
  cbn. repeat split; constructor.
Defined.

Lemma load_draft_without_draft_witness :
  let session1 := set_bill_items (Some [entry_A1 1 4%float]) fresh_session in
  t_draft_bill catalog_A1 = []
  /\ load_draft_bill session1 catalog_A1 = (None, session1)
  /\ load_draft_reception session1 catalog_A1 = (None, session1).
Proof.
  intros session1.
  destruct (load_draft_without_draft session1 catalog_A1)
    as (Hbill & Hreception & _).
  split; [reflexivity|].
  split; [apply Hbill | apply Hreception]; reflexivity.
Defined.

(** * The catalog, the listings and the document views: properties *)

(** ** Ordered queries *)

Lemma insert_by_perm {A : Type} (le : A -> A -> bool) (x : A) (l : list A) :
  Permutation (insert_by le x l) (x :: l).
Proof.
  induction l as [|y rest IH]; cbn [insert_by]; [reflexivity|].
  destruct (le x y); [reflexivity|].
  rewrite IH. apply perm_swap.
Qed.

(** An ordered query returns the rows of its table, each as often as the
    table holds it. *)
Lemma order_by_perm {A : Type} (le : A -> A -> bool) (rows : list A) :
  Permutation (order_by le rows) rows.
Proof.
  unfold order_by. induction rows as [|x rest IH]; cbn [fold_right];
    [reflexivity|].
  rewrite insert_by_perm, IH. reflexivity.
Qed.

Lemma order_by_in {A : Type} (le : A -> A -> bool) (rows : list A) (x : A) :
  In x (order_by le rows) <-> In x rows.
Proof.
  split; apply Permutation_in; [|symmetry]; apply order_by_perm.
Qed.

Lemma insert_by_sorted {A : Type} (le : A -> A -> bool) (x : A) (l : list A) :
  (forall a b, le a b = false -> le b a = true) ->
  Sorted (fun a b => le a b = true) l ->
  Sorted (fun a b => le a b = true) (insert_by le x l).
Proof.
  intros Htotal Hsorted.
  induction l as [|y rest IH]; cbn [insert_by].
  - repeat constructor.
  - destruct (le x y) eqn:Hxy.
    + constructor; [exact Hsorted | constructor; exact Hxy].
    + inversion Hsorted as [|? ? Hrest Hhd]; subst.
      constructor; [apply IH; exact Hrest|].
      destruct rest as [|z rest']; cbn [insert_by].
      * constructor. apply Htotal. exact Hxy.
      * destruct (le x z); constructor.
        -- apply Htotal. exact Hxy.
        -- inversion Hhd; assumption.
Qed.

(** With a total comparison, an ordered query returns its rows in order. *)
Lemma order_by_sorted {A : Type} (le : A -> A -> bool) (rows : list A) :
  (forall a b, le a b = false -> le b a = true) ->
  Sorted (fun a b => le a b = true) (order_by le rows).
Proof.
  intros Htotal. unfold order_by.
  induction rows as [|x rest IH]; cbn [fold_right]; [constructor|].
  apply insert_by_sorted; assumption.
Qed.

Lemma insert_by_sorted_on {A : Type} (le : A -> A -> bool) (x : A) (l : list A) :
  (forall y, In y l -> le x y = false -> le y x = true) ->
  Sorted (fun a b => le a b = true) l ->
  Sorted (fun a b => le a b = true) (insert_by le x l).
Proof.
  intros Htotal Hsorted.
  induction l as [|y rest IH]; cbn [insert_by].
  - repeat constructor.
  - destruct (le x y) eqn:Hxy.
    + constructor; [exact Hsorted | constructor; exact Hxy].
    + inversion Hsorted as [|? ? Hrest Hhd]; subst.
      assert (Hyx : le y x = true)
        by (apply Htotal; [left; reflexivity | exact Hxy]).
      constructor.
      * apply IH; [|exact Hrest]. intros z Hz. apply Htotal. right. exact Hz.
      * destruct rest as [|z rest']; cbn [insert_by].
        -- constructor. exact Hyx.
        -- destruct (le x z); constructor; [exact Hyx|].
           inversion Hhd; assumption.
Qed.

(** It is enough that the rows of the table compare one way or the other. *)
Lemma order_by_sorted_on {A : Type} (le : A -> A -> bool) (rows : list A) :
  (forall a b, In a rows -> In b rows -> le a b = false -> le b a = true) ->
  Sorted (fun a b => le a b = true) (order_by le rows).
Proof.
  intros Htotal. unfold order_by.
  induction rows as [|x rest IH]; cbn [fold_right]; [constructor|].
  apply insert_by_sorted_on.
  - intros y Hy. apply Htotal; [left; reflexivity|].
    right. apply (order_by_in le rest y). exact Hy.
  - apply IH. intros a b Ha Hb. apply Htotal; right; assumption.
Qed.

(** Rows that already are in order come back as they are. *)
Lemma order_by_of_sorted {A : Type} (le : A -> A -> bool) (rows : list A) :
  Sorted (fun a b => le a b = true) rows -> order_by le rows = rows.
Proof.
  unfold order_by. induction rows as [|x rest IH]; intros Hsorted;
    cbn [fold_right]; [reflexivity|].
  inversion Hsorted as [|? ? Hrest Hhd]; subst. rewrite (IH Hrest).
  destruct rest as [|y rest']; cbn [insert_by]; [reflexivity|].
  inversion Hhd as [|? ? Hxy]; subst. rewrite Hxy. reflexivity.
Qed.

(** ** Primary keys *)

Lemma next_id_above (ids : list Z) (i : Z) : In i ids -> i < next_id ids.
Proof.
  unfold next_id. induction ids as [|j rest IH]; cbn [fold_right In];
    [tauto|].
  intros [-> | Hin]; [lia|]. specialize (IH Hin). lia.
Qed.

Lemma next_id_fresh (ids : list Z) : ~ In (next_id ids) ids.
Proof.
  intros Hin. apply next_id_above in Hin. lia.
Qed.

Section SiteProperties.

Context {R : Type} {N : Num R} {L : NumLe R}.

Implicit Types (db : Database (R:=R)) (session : Session (R:=R))
  (items : list (Item (R:=R))) (rows : list (Product (R:=R))).

(** ** What a finalize request leaves alone *)

Lemma write_found_map {B : Type} (f : Product (R:=R) -> B) (c : string)
    (product product' : Product) rows :
  product_by_code c rows = Some product ->
  f product' = f product ->
  map f (write_product c product' rows) = map f rows.
Proof.
  unfold product_by_code. intros Hfind Hf.
  induction rows as [|r rest IH]; cbn [find write_product map] in *;
    [reflexivity|].
  destruct (String.eqb (p_code r) c).
  - inversion Hfind; subst r. cbn [map]. rewrite Hf. reflexivity.
  - cbn [map]. rewrite (IH Hfind). reflexivity.
Qed.

Lemma apply_stock_map {B : Type} (f : Product (R:=R) -> B)
    (op : R -> R -> R) (now : timestamp) items :
  (forall q p, f (set_quantity q now p) = f p) ->
  forall rows, map f (apply_stock op now items rows) = map f rows.
Proof.
  intros Hf. unfold apply_stock.
  induction items as [|item rest IH]; intros rows; cbn [fold_left];
    [reflexivity|].
  rewrite IH. unfold stock_step.
  destruct (product_by_code (code item) rows) as [p|] eqn:Hp; [|reflexivity].
  apply (write_found_map f _ p); [exact Hp | apply Hf].
Qed.

(** X1: whatever its outcome, finalizing a consumption bill leaves the
    reception buffer, the reception sheets, their line items and the
    reception draft as they were, and finalizing a reception leaves the bill
    side as it was; and either of them leaves the number, the order and the
    description (id, code, name, unit, location, minimum stock) of the
    products as they were: only quantities and time stamps change. *)
Theorem finalize_keeps_the_rest (faulty : nat -> bool) (now : timestamp)
    session db :
  (forall n sg,
     let out := finalize_consumption_bill faulty n sg now session db in
     s_reception_items (snd (fst out)) = s_reception_items session
     /\ t_reception_sheet (snd out) = t_reception_sheet db
     /\ t_reception_item (snd out) = t_reception_item db
     /\ t_draft_reception (snd out) = t_draft_reception db
     /\ t_draft_reception_item (snd out) = t_draft_reception_item db
     /\ map description (t_product (snd out)) = map description (t_product db))
  /\
  (forall sp dn nt,
     let out := finalize_reception faulty sp dn nt now session db in
     s_bill_items (snd (fst out)) = s_bill_items session
     /\ t_consumption_bill (snd out) = t_consumption_bill db
     /\ t_bill_item (snd out) = t_bill_item db
     /\ t_draft_bill (snd out) = t_draft_bill db
     /\ t_draft_bill_item (snd out) = t_draft_bill_item db
     /\ map description (t_product (snd out)) = map description (t_product db)).
Proof.
  split.
  - intros n sg. cbv zeta.
    pose proof (finalize_consumption_bill_cases faulty n sg now session db) as Hout.
    destruct (finalize_consumption_bill faulty n sg now session db)
      as [[resp session'] db'].
    cbn [fst snd].
    destruct (str_empty (strip n));
      [inversion Hout; subst; repeat split|].
    destruct (entries (s_bill_items session)) as [|item rest];
      [inversion Hout; subst; repeat split|].
    cbv zeta in Hout.
    destruct (find faulty (seq 0 (List.length (item :: rest) + 4)));
      inversion Hout; subst; [repeat split|].
    cbn [bill_committed t_reception_sheet t_reception_item
         t_draft_reception t_draft_reception_item t_product
         set_bill_items s_reception_items].
    repeat (split; [reflexivity|]).
    apply apply_stock_map. reflexivity.
  - intros sp dn nt. cbv zeta.
    pose proof (finalize_reception_cases faulty sp dn nt now session db) as Hout.
    destruct (finalize_reception faulty sp dn nt now session db)
      as [[resp session'] db'].
    cbn [fst snd].
    destruct (str_empty (strip sp));
      [inversion Hout; subst; repeat split|].
    destruct (entries (s_reception_items session)) as [|item rest];
      [inversion Hout; subst; repeat split|].
    cbv zeta in Hout.
    destruct (find faulty (seq 0 (List.length (item :: rest) + 4)));
      inversion Hout; subst; [repeat split|].
    cbn [reception_committed t_consumption_bill t_bill_item
         t_draft_bill t_draft_bill_item t_product
         set_reception_items s_bill_items].
    repeat (split; [reflexivity|]).
    apply apply_stock_map. reflexivity.
Qed.

(** ** Sequences of actions *)

Lemma perform_all_invariant (P : Session (R:=R) * Database (R:=R) -> Prop) :
  (forall a st, P st -> P (perform a st)) ->
  forall actions st, P st -> P (perform_all actions st).
Proof.
  intros Hstep. unfold perform_all.
  induction actions as [|a rest IH]; intros st Hst; cbn [fold_left];
    [exact Hst|].
  apply IH, Hstep, Hst.
Qed.

(** The four outcomes of a bill finalize: three leave everything as it
    was, the fourth commits. *)
Ltac bill_outcomes faulty n sg now session db :=
  let Hout := fresh "Hout" in
  pose proof (finalize_consumption_bill_cases faulty n sg now session db) as Hout;
  destruct (finalize_consumption_bill faulty n sg now session db) as [[? ?] ?];
  destruct (str_empty (strip n));
  [ | destruct (entries (s_bill_items session)) as [|? ?] eqn:?;
      [ | cbv zeta in Hout; destruct (find faulty _) ] ];
  inversion Hout; subst; clear Hout.

Ltac reception_outcomes faulty sp dn nt now session db :=
  let Hout := fresh "Hout" in
  pose proof (finalize_reception_cases faulty sp dn nt now session db) as Hout;
  destruct (finalize_reception faulty sp dn nt now session db) as [[? ?] ?];
  destruct (str_empty (strip sp));
  [ | destruct (entries (s_reception_items session)) as [|? ?] eqn:?;
      [ | cbv zeta in Hout; destruct (find faulty _) ] ];
  inversion Hout; subst; clear Hout.

(** The catalog handlers change the [Product] table and nothing else. *)
Lemma catalog_action_tables (a : action (R:=R)) session db :
  match a with Document _ => False | _ => True end ->
  fst (perform a (session, db)) = session
  /\ exists rows', snd (perform a (session, db)) = with_product rows' db.
Proof.
  destruct a as [req|c n u q l m now|i c n u q l m now|i]; intros Ha;
    [destruct Ha| | |]; cbn [perform fst snd]; (split; [reflexivity|]).
  - unfold add_product. destruct (code_taken _ _ _); cbn [snd];
      eexists; [symmetry; apply with_product_same | reflexivity].
  - unfold edit_product. destruct (product_by_id i (t_product db));
      [destruct (code_taken _ _ _)|]; cbn [snd];
      eexists; try reflexivity; symmetry; apply with_product_same.
  - unfold delete_product. destruct (product_by_id i (t_product db));
      cbn [snd]; eexists; try reflexivity; symmetry; apply with_product_same.
Qed.

Lemma extends_refl {A : Type} (l : list A) : extends l l.
Proof. exists []. symmetry. apply app_nil_r. Qed.

Lemma extends_trans {A : Type} (l l' l'' : list A) :
  extends l' l -> extends l'' l' -> extends l'' l.
Proof.
  intros [a ->] [b ->]. exists (a ++ b). symmetry. apply app_assoc.
Qed.

Lemma documents_kept_refl db : documents_kept db db.
Proof. repeat split; apply extends_refl. Qed.

Lemma documents_kept_trans db db' db'' :
  documents_kept db' db -> documents_kept db'' db' -> documents_kept db'' db.
Proof.
  intros (H1 & H2 & H3 & H4) (G1 & G2 & G3 & G4).
  repeat split; eapply extends_trans; eassumption.
Qed.

Lemma perform_documents_kept (a : action (R:=R)) (st : Session * Database) :
  documents_kept (snd (perform a st)) (snd st).
Proof.
  destruct st as [session db].
  destruct a as [req|c n u q l m now|i c n u q l m now|i].
  2-4: match goal with
       | |- documents_kept (snd (perform ?a _)) _ =>
           destruct (catalog_action_tables a session db I) as [_ [rows' ->]]
       end; repeat split; apply extends_refl.
  cbn [perform snd].
  destruct req as [c q|i|n sg now| |n sg now faulty
                  |c q|i|sp dn nt now| |sp dn nt now faulty];
    cbn [handle snd]; try apply documents_kept_refl.
  - unfold save_bill_draft. destruct (s_bill_items session); cbn [snd];
      repeat split; apply extends_refl.
  - bill_outcomes faulty n sg now session db; try apply documents_kept_refl.
    repeat split; cbn; try apply extends_refl; eexists; reflexivity.
  - unfold save_reception_draft. destruct (s_reception_items session);
      cbn [snd]; repeat split; apply extends_refl.
  - reception_outcomes faulty sp dn nt now session db;
      try apply documents_kept_refl.
    repeat split; cbn; try apply extends_refl; eexists; reflexivity.
Qed.

(** X2: no sequence of requests, catalog edits included, modifies, reorders
    or deletes a finalized document or a recorded line item: the four
    document tables only grow at their end. *)
Theorem documents_are_append_only (actions : list (action (R:=R)))
    (st : Session * Database) :
  documents_kept (snd (perform_all actions st)) (snd st).
Proof.
  apply (perform_all_invariant (fun st' => documents_kept (snd st') (snd st)));
    [|apply documents_kept_refl].
  intros a st' Hst'. eapply documents_kept_trans; [exact Hst'|].
  apply perform_documents_kept.
Qed.

(** ** Draft store *)

Lemma in_rows_of_items (owner : Z) items (row : ItemRow (R:=R)) :
  In row (map (row_of_item owner) items) -> parent_id row = owner.
Proof.
  intros Hin. apply in_map_iff in Hin. destruct Hin as [item [<- _]].
  reflexivity.
Qed.

(** X3: saving a draft replaces whatever draft of that type was stored: the
    draft table then holds the one new draft with the metadata given, the
    draft line items are the rows of the buffer entries, in order and owned
    by that draft, every other table is as it was, and the result does not
    depend on any draft saved before. *)
Theorem save_draft_overwrites (now : timestamp) session db :
  (forall n sg,
     let db' := snd (save_bill_draft n sg now session db) in
     (exists draft,
        t_draft_bill db' = [draft]
        /\ dbill_employee_name draft = n
        /\ dbill_employee_signature draft = sg
        /\ t_draft_bill_item db' =
           map (row_of_item (dbill_id draft)) (entries (s_bill_items session)))
     /\ with_draft_bill (t_draft_bill db)
          (with_draft_bill_item (t_draft_bill_item db) db') = db
     /\ forall n0 sg0 now0 session0,
          snd (save_bill_draft n sg now session
                 (snd (save_bill_draft n0 sg0 now0 session0 db))) = db')
  /\
  (forall sp dn nt,
     let db' := snd (save_reception_draft sp dn nt now session db) in
     (exists draft,
        t_draft_reception db' = [draft]
        /\ drec_supplier draft = sp
        /\ drec_document_number draft = dn
        /\ drec_notes draft = nt
        /\ t_draft_reception_item db' =
           map (row_of_item (drec_id draft)) (entries (s_reception_items session)))
     /\ with_draft_reception (t_draft_reception db)
          (with_draft_reception_item (t_draft_reception_item db) db') = db
     /\ forall sp0 dn0 nt0 now0 session0,
          snd (save_reception_draft sp dn nt now session
                 (snd (save_reception_draft sp0 dn0 nt0 now0 session0 db))) = db').
Proof.
  split.
  - intros n sg. cbv zeta. unfold save_bill_draft.
    split; [|split].
    + destruct (s_bill_items session); cbn; eexists; repeat split.
    + destruct (s_bill_items session); destruct db; reflexivity.
    + intros n0 sg0 now0 session0.
      destruct (s_bill_items session), (s_bill_items session0); reflexivity.
  - intros sp dn nt. cbv zeta. unfold save_reception_draft.
    split; [|split].
    + destruct (s_reception_items session); cbn; eexists; repeat split.
    + destruct (s_reception_items session); destruct db; reflexivity.
    + intros sp0 dn0 nt0 now0 session0.
      destruct (s_reception_items session), (s_reception_items session0);
        reflexivity.
Qed.

Lemma perform_single_draft (a : action (R:=R)) (st : Session * Database) :
  single_draft (snd st) -> single_draft (snd (perform a st)).
Proof.
  destruct st as [session db]. cbn [snd]. intros Hdb.
  destruct a as [req|c n u q l m now|i c n u q l m now|i].
  2-4: match goal with
       | |- single_draft (snd (perform ?a _)) =>
           destruct (catalog_action_tables a session db I) as [_ [rows' ->]]
       end; exact Hdb.
  destruct Hdb as (Hb & Hr & Hbi & Hri).
  cbn [perform]. unfold single_draft.
  destruct req as [c q|i|n sg now| |n sg now faulty
                  |c q|i|sp dn nt now| |sp dn nt now faulty];
    cbn [handle snd]; try (repeat split; assumption).
  - unfold save_bill_draft.
    destruct (s_bill_items session); destruct db; cbn in *; repeat split;
      try assumption;
      try lia; try (intros row []).
    intros row Hin. left. symmetry. exact (in_rows_of_items _ _ _ Hin).
  - bill_outcomes faulty n sg now session db; try (repeat split; assumption).
    destruct db; cbn in *. repeat split; try assumption; try lia; intros row [].
  - unfold save_reception_draft.
    destruct (s_reception_items session); destruct db; cbn in *; repeat split;
      try assumption;
      try lia; try (intros row []).
    intros row Hin. left. symmetry. exact (in_rows_of_items _ _ _ Hin).
  - reception_outcomes faulty sp dn nt now session db;
      try (repeat split; assumption).
    destruct db; cbn in *. repeat split; try assumption; try lia; intros row [].
Qed.

(** X4: over any sequence of requests there is at most one draft of each
    type, and every draft line item belongs to it. *)
Theorem single_draft_kept (actions : list (action (R:=R)))
    (st : Session * Database) :
  single_draft (snd st) -> single_draft (snd (perform_all actions st)).
Proof.
  apply (perform_all_invariant (fun st' => single_draft (snd st'))).
  apply perform_single_draft.
Qed.

(** ** Sequence numbers everywhere *)

Lemma rows_numbered_of_items (owner : Z) items :
  numbered (Some items) -> rows_numbered (map (row_of_item owner) items).
Proof.
  unfold numbered, rows_numbered. intros H.
  rewrite map_map, length_map. exact H.
Qed.

Lemma numbered_of_rows (rows : list (ItemRow (R:=R))) :
  rows_numbered rows -> numbered (Some (map item_of_row rows)).
Proof.
  unfold numbered, rows_numbered. intros H.
  rewrite map_map, length_map. exact H.
Qed.

Lemma items_of_app (owner : Z) (a b : list (ItemRow (R:=R))) :
  items_of owner (a ++ b) = items_of owner a ++ items_of owner b.
Proof. apply filter_app. Qed.

Lemma items_of_none (owner : Z) (table : list (ItemRow (R:=R))) :
  (forall row, In row table -> parent_id row <> owner) ->
  items_of owner table = [].
Proof.
  intros H. unfold items_of.
  induction table as [|row rest IH]; cbn [filter]; [reflexivity|].
  destruct (parent_id row =? owner) eqn:Heq.
  - apply Z.eqb_eq in Heq. exfalso. apply (H row); [left; reflexivity | exact Heq].
  - apply IH. intros row' Hin. apply H. right. exact Hin.
Qed.

Lemma items_of_rows (owner owner' : Z) items :
  items_of owner (map (row_of_item owner') items) =
  if owner' =? owner then map (row_of_item owner') items else [].
Proof.
  destruct (owner' =? owner) eqn:Heq.
  - apply Z.eqb_eq in Heq. subst owner'. apply filter_owner.
  - apply items_of_none. intros row Hin Hp.
    apply in_rows_of_items in Hin. apply Z.eqb_neq in Heq. congruence.
Qed.

(** The line items a finalize appends keep the numbering of every document,
    old and new. *)
Lemma document_rows_numbered (ids : list Z) (table : list (ItemRow (R:=R))) items :
  (forall row, In row table -> In (parent_id row) ids) ->
  (forall owner, rows_numbered (items_of owner table)) ->
  numbered (Some items) ->
  (forall row, In row (table ++ map (row_of_item (next_id ids)) items) ->
               In (parent_id row) (ids ++ [next_id ids]))
  /\ (forall owner,
        rows_numbered
          (items_of owner (table ++ map (row_of_item (next_id ids)) items))).
Proof.
  intros Href Hnum Hbuf. split.
  - intros row Hin. apply in_app_iff in Hin. apply in_app_iff.
    destruct Hin as [Hin | Hin]; [left; apply Href; exact Hin|].
    right. left. symmetry. exact (in_rows_of_items _ _ _ Hin).
  - intros owner. rewrite items_of_app, items_of_rows.
    destruct (next_id ids =? owner) eqn:Heq.
    + apply Z.eqb_eq in Heq. subst owner.
      rewrite items_of_none.
      * apply rows_numbered_of_items. exact Hbuf.
      * intros row Hin Hp. apply (next_id_fresh ids).
        rewrite <- Hp. apply Href. exact Hin.
    + rewrite app_nil_r. apply Hnum.
Qed.

Lemma numbered_entries (buffer : option (list (Item (R:=R)))) item rest :
  numbered buffer -> entries buffer = item :: rest ->
  numbered (Some (item :: rest)).
Proof.
  destruct buffer as [items|]; cbn [entries]; intros Hnum Heq;
    [subst items; exact Hnum | discriminate Heq].
Qed.

Lemma handle_numbering (req : request (R:=R)) (st : Session * Database) :
  numbering_kept st -> numbering_kept (handle req st).
Proof.
  destruct st as [session db].
  unfold numbering_kept, drafts_numbered, documents_numbered. cbn [fst snd].
  intros (Hb & Hr & (Hdb & Hdr) & (Hrb & Hrr & Hnb & Hnr)).
  destruct req as [c q|i|n sg now| |n sg now faulty
                  |c q|i|sp dn nt now| |sp dn nt now faulty];
    cbn [handle fst snd].
  - destruct (numbered_add_bill_item c q session db Hb) as [Hb' ->].
    repeat split; assumption.
  - destruct (numbered_remove_bill_item i session Hb) as [Hb' ->].
    repeat split; assumption.
  - unfold save_bill_draft.
    destruct (s_bill_items session) as [items|]; destruct db; cbn in *;
      repeat split; try assumption; intros draft Hd;
      inversion Hd; subst draft; cbn [dbill_id]; try reflexivity.
    rewrite filter_owner. apply rows_numbered_of_items. exact Hb.
  - unfold load_draft_bill.
    destruct (latest_by dbill_last_updated (t_draft_bill db)) as [draft|] eqn:Hd;
      cbn [snd set_bill_items s_bill_items s_reception_items];
      [|repeat split; assumption].
    split; [|repeat split; assumption].
    apply numbered_of_rows. apply (Hdb draft). reflexivity.
  - bill_outcomes faulty n sg now session db; try (repeat split; assumption).
    destruct (document_rows_numbered (map cb_id (t_consumption_bill db))
                (t_bill_item db) (i :: l)) as [Href' Hnum']; try assumption.
    { apply (numbered_entries (s_bill_items session)); assumption. }
    destruct db; cbn in *. rewrite map_app. cbn [map cb_id].
    repeat split; assumption.
  - destruct (numbered_add_reception_item c q session db Hr) as [Hr' ->].
    repeat split; assumption.
  - destruct (numbered_remove_reception_item i session Hr) as [Hr' ->].
    repeat split; assumption.
  - unfold save_reception_draft.
    destruct (s_reception_items session) as [items|]; destruct db; cbn in *;
      repeat split; try assumption; intros draft Hd;
      inversion Hd; subst draft; cbn [drec_id]; try reflexivity.
    rewrite filter_owner. apply rows_numbered_of_items. exact Hr.
  - unfold load_draft_reception.
    destruct (latest_by drec_last_updated (t_draft_reception db))
      as [draft|] eqn:Hd;
      cbn [snd set_reception_items s_bill_items s_reception_items];
      [|repeat split; assumption].
    split; [assumption|]. split; [|repeat split; assumption].
    apply numbered_of_rows. apply (Hdr draft). reflexivity.
  - reception_outcomes faulty sp dn nt now session db;
      try (repeat split; assumption).
    destruct (document_rows_numbered (map rs_id (t_reception_sheet db))
                (t_reception_item db) (i :: l)) as [Href' Hnum']; try assumption.
    { apply (numbered_entries (s_reception_items session)); assumption. }
    destruct db; cbn in *. rewrite map_app. cbn [map rs_id].
    repeat split; assumption.
Qed.

(** X5: buffers that are numbered 1..n, drafts whose items are, and
    documents whose line items are (each line item belonging to a recorded
    document) stay so over any sequence of requests, catalog edits, draft
    saves and loads and finalizations included: every document ever
    recorded has its line items numbered 1..n in the order recorded. *)
Theorem numbering_kept_everywhere (actions : list (action (R:=R)))
    (st : Session * Database) :
  numbering_kept st -> numbering_kept (perform_all actions st).
Proof.
  apply perform_all_invariant. clear st. intros a [session db] Hst.
  destruct a as [req|c n u q l m now|i c n u q l m now|i];
    [apply handle_numbering; exact Hst| | |].
  all: match goal with
       | |- numbering_kept (perform ?a _) =>
           destruct (catalog_action_tables a session db I) as [Hs [rows' Hdb]]
       end;
    unfold numbering_kept in *; rewrite Hs, Hdb; destruct db; exact Hst.
Qed.

(** ** Adding and removing compose *)

Lemma renumber_from_numbered items : forall start,
  map item_number items = count_from (start + 1) (List.length items) ->
  renumber_from start items = items.
Proof.
  induction items as [|item rest IH]; intros start Hnum; cbn [renumber_from];
    [reflexivity|].
  cbn [map List.length count_from] in Hnum. injection Hnum as Hitem Hrest.
  rewrite (IH (start + 1) Hrest). rewrite <- Hitem. destruct item; reflexivity.
Qed.

Lemma pop_appended {A : Type} (l : list A) (x : A) : pop (len l) (l ++ [x]) = l.
Proof.
  unfold pop, len. rewrite Nat2Z.id.
  rewrite firstn_app, Nat.sub_diag, firstn_all. cbn [firstn].
  rewrite skipn_all2 by (rewrite length_app; cbn; lia).
  rewrite !app_nil_r. reflexivity.
Qed.

(** X6: on a buffer numbered 1..n, removing the entry that an add-item
    request has just appended, at its index (its number minus one), gives
    back the entries the buffer had before. *)
Theorem add_then_remove_restores (c : string) (q : R) session db
    (item : Item (R:=R)) (session1 : Session) :
  (numbered (s_bill_items session) ->
   add_bill_item c q session db = (JsonSuccess item, session1) ->
   remove_bill_item (item_number item - 1) session1 =
   (FlashRedirect (Some (ItemRemoved, success)) to_create_consumption_bill,
    set_bill_items (Some (entries (s_bill_items session))) session))
  /\
  (numbered (s_reception_items session) ->
   add_reception_item c q session db = (JsonSuccess item, session1) ->
   remove_reception_item (item_number item - 1) session1 =
   (FlashRedirect (Some (ItemRemoved, success)) to_create_reception,
    set_reception_items (Some (entries (s_reception_items session))) session)).
Proof.
  split.
  - intros Hnum. unfold add_bill_item.
    destruct (product_by_code c (t_product db)) as [p|]; [|discriminate].
    destruct (ngt q (p_quantity p)); [discriminate|].
    change (match s_bill_items session with
            | Some items => items
            | None => []
            end) with (entries (s_bill_items session)).
    intros Hadd. inversion Hadd; subst item session1. clear Hadd.
    cbn [item_number]. unfold remove_bill_item.
    cbn [s_bill_items set_bill_items].
    replace (len (entries (s_bill_items session)) + 1 - 1)
      with (len (entries (s_bill_items session))) by lia.
    replace ((0 <=? len (entries (s_bill_items session))) &&
             (len (entries (s_bill_items session)) <?
              len (entries (s_bill_items session) ++ [_]))) with true.
    + rewrite pop_appended. unfold renumber.
      rewrite renumber_from_numbered; [reflexivity|].
      destruct (s_bill_items session); [exact Hnum | reflexivity].
    + symmetry. apply andb_true_iff. unfold len. rewrite length_app. cbn.
      split; [apply Z.leb_le | apply Z.ltb_lt]; lia.
  - intros Hnum. unfold add_reception_item.
    destruct (product_by_code c (t_product db)) as [p|]; [|discriminate].
    change (match s_reception_items session with
            | Some items => items
            | None => []
            end) with (entries (s_reception_items session)).
    intros Hadd. inversion Hadd; subst item session1. clear Hadd.
    cbn [item_number]. unfold remove_reception_item.
    cbn [s_reception_items set_reception_items].
    replace (len (entries (s_reception_items session)) + 1 - 1)
      with (len (entries (s_reception_items session))) by lia.
    replace ((0 <=? len (entries (s_reception_items session))) &&
             (len (entries (s_reception_items session)) <?
              len (entries (s_reception_items session) ++ [_]))) with true.
    + rewrite pop_appended. unfold renumber.
      rewrite renumber_from_numbered; [reflexivity|].
      destruct (s_reception_items session); [exact Hnum | reflexivity].
    + symmetry. apply andb_true_iff. unfold len. rewrite length_app. cbn.
      split; [apply Z.leb_le | apply Z.ltb_lt]; lia.
Qed.

(** ** Product catalog *)

Lemma product_by_code_none (c : string) rows :
  product_by_code c rows = None <-> ~ In c (map p_code rows).
Proof.
  unfold product_by_code. induction rows as [|r rest IH]; cbn [find map In].
  - tauto.
  - destruct (String.eqb (p_code r) c) eqn:Hr.
    + apply String.eqb_eq in Hr. split; [discriminate | tauto].
    + apply String.eqb_neq in Hr. tauto.
Qed.

Lemma product_by_id_none (i : Z) rows :
  product_by_id i rows = None <-> ~ In i (map p_id rows).
Proof.
  unfold product_by_id. induction rows as [|r rest IH]; cbn [find map In].
  - tauto.
  - destruct (p_id r =? i) eqn:Hr.
    + apply Z.eqb_eq in Hr. split; [discriminate | tauto].
    + apply Z.eqb_neq in Hr. tauto.
Qed.

Lemma product_by_id_id (i : Z) rows (product : Product (R:=R)) :
  product_by_id i rows = Some product -> p_id product = i /\ In product rows.
Proof.
  intros H. apply find_some in H. destruct H as [Hin H].
  apply Z.eqb_eq in H. tauto.
Qed.

(** A code is refused when a row with another primary key carries it. *)
Lemma code_taken_spec (i : Z) (c : string) rows :
  code_taken i c rows = true <->
  exists p, In p rows /\ p_id p <> i /\ p_code p = c.
Proof.
  unfold code_taken. rewrite existsb_exists. split.
  - intros [p [Hin Hp]]. apply andb_true_iff in Hp. destruct Hp as [Hid Hc].
    exists p. apply negb_true_iff, Z.eqb_neq in Hid. apply String.eqb_eq in Hc.
    tauto.
  - intros [p (Hin & Hid & Hc)]. exists p. split; [exact Hin|].
    apply andb_true_iff. split.
    + apply negb_true_iff, Z.eqb_neq. exact Hid.
    + apply String.eqb_eq. exact Hc.
Qed.

Lemma code_taken_new (c : string) rows :
  code_taken (next_id (map p_id rows)) c rows = true <-> In c (map p_code rows).
Proof.
  rewrite code_taken_spec, in_map_iff. split.
  - intros [p (Hin & _ & Hc)]. exists p. tauto.
  - intros [p [Hc Hin]]. exists p. repeat split; try assumption.
    intros Hid. apply (next_id_fresh (map p_id rows)). rewrite <- Hid.
    apply in_map. exact Hin.
Qed.

(** X8: adding a product whose code, once stripped, is already in the
    catalog changes nothing and reports the duplicate; otherwise the
    product is appended with a primary key no other product has, the
    stripped texts and the numbers given, every other product and table is
    as it was, and the new code denotes the new product from then on. *)
Theorem add_product_outcomes (c n u : string) (q : R) (l : string) (m : R)
    (now : timestamp) db :
  (In (strip c) (map p_code (t_product db)) ->
   add_product c n u q l m now db = (ProductForm CodeExists, db))
  /\
  (~ In (strip c) (map p_code (t_product db)) ->
   exists product,
     add_product c n u q l m now db =
     (ToProducts ProductAdded, with_product (t_product db ++ [product]) db)
     /\ ~ In (p_id product) (map p_id (t_product db))
     /\ description product =
        (p_id product, strip c, strip n, strip u, strip l, m)
     /\ p_quantity product = q
     /\ product_by_code (strip c) (t_product db ++ [product]) = Some product
     /\ forall c', c' <> strip c ->
          product_by_code c' (t_product db ++ [product]) =
          product_by_code c' (t_product db)).
Proof.
  unfold add_product. cbv zeta. cbn [p_id]. split.
  - intros Hin. apply code_taken_new in Hin. rewrite Hin. reflexivity.
  - intros Hnew.
    destruct (code_taken (next_id (map p_id (t_product db))) (strip c)
                (t_product db)) eqn:Htaken;
      [apply code_taken_new in Htaken; contradiction|].
    eexists. split; [reflexivity|]. cbn [p_id description p_quantity].
    split; [apply next_id_fresh|]. split; [reflexivity|].
    split; [reflexivity|]. split.
    + unfold product_by_code. rewrite find_app_first.
      apply product_by_code_none in Hnew. unfold product_by_code in Hnew.
      rewrite Hnew. cbn [find p_code]. rewrite String.eqb_refl. reflexivity.
    + intros c' Hc'. unfold product_by_code. rewrite find_app_first.
      destruct (find (fun p => String.eqb (p_code p) c') (t_product db));
        [reflexivity|].
      cbn [find p_code]. apply String.eqb_neq in Hc'.
      rewrite String.eqb_sym, Hc'. reflexivity.
Qed.

Lemma delete_by_id_split (i : Z) rows (product : Product (R:=R)) :
  product_by_id i rows = Some product ->
  exists before after,
    rows = before ++ product :: after
    /\ delete_by_id i rows = before ++ after
    /\ ~ In i (map p_id before).
Proof.
  unfold product_by_id.
  induction rows as [|r rest IH]; cbn [find delete_by_id]; [discriminate|].
  destruct (p_id r =? i) eqn:Hr.
  - intros H. inversion H; subst r. exists [], rest. cbn. tauto.
  - intros H. destruct (IH H) as (before & after & Hrows & Hdel & Hnot).
    exists (r :: before), after. cbn [app map In]. rewrite Hdel, <- Hrows.
    apply Z.eqb_neq in Hr. tauto.
Qed.

(** X9: deleting a product that does not exist answers 404 and changes
    nothing; deleting one that exists removes that row only: the products
    before and after it stay in order and no document, line item, draft or
    buffer is touched.  With unique primary keys and codes, neither the key
    nor the code denotes a product afterwards, so adding the code to a bill
    or a reception is refused as product not found. *)
Theorem delete_product_outcomes (i : Z) db :
  (product_by_id i (t_product db) = None ->
   delete_product i db = (NotFound404, db))
  /\
  (forall product,
     product_by_id i (t_product db) = Some product ->
     exists before after,
       t_product db = before ++ product :: after
       /\ delete_product i db =
          (ToProducts ProductDeleted, with_product (before ++ after) db)
       /\ (NoDup (map p_id (t_product db)) ->
           product_by_id i (before ++ after) = None)
       /\ (NoDup (map p_code (t_product db)) ->
           forall q session,
             add_bill_item (p_code product) q session
               (with_product (before ++ after) db) =
             (JsonError ProductNotFound 400, session)
             /\ add_reception_item (p_code product) q session
                  (with_product (before ++ after) db) =
                (JsonError ProductNotFound 400, session))).
Proof.
  unfold delete_product. split.
  - intros ->. reflexivity.
  - intros product Hfind. rewrite Hfind.
    destruct (delete_by_id_split i _ _ Hfind)
      as (before & after & Hrows & Hdel & Hnot).
    exists before, after. rewrite Hdel.
    split; [exact Hrows|]. split; [reflexivity|].
    destruct (product_by_id_id _ _ _ Hfind) as [Hid _]. split.
    + intros Hnodup. apply product_by_id_none.
      rewrite Hrows, map_app in Hnodup. cbn [map] in Hnodup.
      apply NoDup_remove_2 in Hnodup. rewrite Hid in Hnodup.
      rewrite map_app. exact Hnodup.
    + intros Hnodup q session.
      assert (Hgone : product_by_code (p_code product) (before ++ after) = None).
      { apply product_by_code_none.
        rewrite Hrows, map_app in Hnodup. cbn [map] in Hnodup.
        apply NoDup_remove_2 in Hnodup. rewrite map_app. exact Hnodup. }
      unfold add_bill_item, add_reception_item.
      destruct db; cbn [t_product with_product]. rewrite Hgone.
      split; reflexivity.
Qed.

Lemma write_by_id_split (i : Z) rows (old new : Product (R:=R)) :
  product_by_id i rows = Some old ->
  exists before after,
    rows = before ++ old :: after
    /\ write_by_id i new rows = before ++ new :: after
    /\ ~ In i (map p_id before).
Proof.
  unfold product_by_id.
  induction rows as [|r rest IH]; cbn [find write_by_id]; [discriminate|].
  destruct (p_id r =? i) eqn:Hr.
  - intros H. inversion H; subst r. exists [], rest. cbn. tauto.
  - intros H. destruct (IH H) as (before & after & Hrows & Hwrite & Hnot).
    exists (r :: before), after. cbn [app map In]. rewrite Hwrite, <- Hrows.
    apply Z.eqb_neq in Hr. tauto.
Qed.

Lemma unique_by {A B : Type} (f : A -> B) (l : list A) (x y : A) :
  NoDup (map f l) -> In x l -> In y l -> f x = f y -> x = y.
Proof.
  induction l as [|a rest IH]; cbn [map In]; [tauto|].
  intros Hnodup Hx Hy Hf. inversion Hnodup as [|? ? Hnotin Hrest]; subst.
  destruct Hx as [-> | Hx], Hy as [-> | Hy]; try reflexivity.
  - exfalso. apply Hnotin. rewrite Hf. apply in_map. exact Hy.
  - exfalso. apply Hnotin. rewrite <- Hf. apply in_map. exact Hx.
  - apply IH; assumption.
Qed.

(** X10: editing a product that does not exist answers 404; editing one to
    a code carried by a product with another primary key changes nothing and
    reports the duplicate; otherwise the row keeps its primary key and its
    place and takes the stripped texts, the numbers and the time given,
    every other row staying as it was.  With unique codes, keeping the
    product's own code is never refused. *)
Theorem edit_product_outcomes (i : Z) (c n u : string) (q : R) (l : string)
    (m : R) (now : timestamp) db :
  (product_by_id i (t_product db) = None ->
   edit_product i c n u q l m now db = (NotFound404, db))
  /\
  (forall old,
     product_by_id i (t_product db) = Some old ->
     let new := {| p_id := i; p_code := strip c; p_name := strip n;
                   p_unit := strip u; p_quantity := q; p_location := strip l;
                   p_min_stock := m; p_updated_at := now |} in
     ((exists p, In p (t_product db) /\ p_id p <> i /\ p_code p = strip c) ->
      edit_product i c n u q l m now db = (ProductForm CodeExists, db))
     /\
     ((forall p, In p (t_product db) -> p_id p <> i -> p_code p <> strip c) ->
      exists before after,
        t_product db = before ++ old :: after
        /\ ~ In i (map p_id before)
        /\ edit_product i c n u q l m now db =
           (ToProducts ProductUpdated, with_product (before ++ new :: after) db))
     /\
     (NoDup (map p_code (t_product db)) -> strip c = p_code old ->
      forall p, In p (t_product db) -> p_id p <> i -> p_code p <> strip c)).
Proof.
  unfold edit_product. split.
  - intros ->. reflexivity.
  - intros old Hfind. rewrite Hfind. cbv zeta.
    destruct (product_by_id_id _ _ _ Hfind) as [Hid Hin]. rewrite Hid.
    split; [|split].
    + intros Htaken. apply code_taken_spec in Htaken. rewrite Htaken.
      reflexivity.
    + intros Hfree.
      destruct (code_taken i (strip c) (t_product db)) eqn:Htaken.
      { apply code_taken_spec in Htaken.
        destruct Htaken as [p (Hp & Hpid & Hpc)].
        exfalso. exact (Hfree p Hp Hpid Hpc). }
      match goal with
      | |- context [write_by_id i ?new _] =>
          destruct (write_by_id_split i _ old new Hfind)
            as (before & after & Hrows & Hwrite & Hnot)
      end.
      exists before, after. rewrite Hwrite. repeat split; assumption.
    + intros Hnodup Hsame p Hp Hpid Hpc.
      apply Hpid. rewrite <- Hid. f_equal.
      apply (unique_by p_code (t_product db)); try assumption. congruence.
Qed.

(** Handlers of documents leave what is constant under a stock adjustment
    as it was, for every product. *)
Lemma handle_products {B : Type} (f : Product (R:=R) -> B)
    (req : request (R:=R)) (st : Session * Database) :
  (forall q now p, f (set_quantity q now p) = f p) ->
  map f (t_product (snd (handle req st))) = map f (t_product (snd st)).
Proof.
  intros Hf. destruct st as [session db].
  destruct req as [c q|i|n sg now| |n sg now faulty
                  |c q|i|sp dn nt now| |sp dn nt now faulty];
    cbn [handle snd]; try reflexivity.
  - unfold save_bill_draft. destruct (s_bill_items session); reflexivity.
  - bill_outcomes faulty n sg now session db; try reflexivity.
    cbn [bill_committed t_product]. apply apply_stock_map. intros. apply Hf.
  - unfold save_reception_draft. destruct (s_reception_items session);
      reflexivity.
  - reception_outcomes faulty sp dn nt now session db; try reflexivity.
    cbn [reception_committed t_product]. apply apply_stock_map. intros. apply Hf.
Qed.

Lemma NoDup_snoc {A : Type} (l : list A) (x : A) :
  NoDup l -> ~ In x l -> NoDup (l ++ [x]).
Proof.
  intros Hl Hx. induction Hl as [|a l Ha Hl IH]; cbn [app].
  - constructor; [intros [] | constructor].
  - constructor.
    + rewrite in_app_iff. cbn [In]. intros [H | [H | []]]; [tauto|].
      apply Hx. left. symmetry. exact H.
    + apply IH. intros H. apply Hx. right. exact H.
Qed.

Lemma delete_by_id_incl (i : Z) rows (p : Product (R:=R)) :
  In p (delete_by_id i rows) -> In p rows.
Proof.
  induction rows as [|r rest IH]; cbn [delete_by_id]; [tauto|].
  destruct (p_id r =? i); cbn [In]; tauto.
Qed.

Lemma delete_by_id_nodup {B : Type} (f : Product (R:=R) -> B) (i : Z) rows :
  NoDup (map f rows) -> NoDup (map f (delete_by_id i rows)).
Proof.
  induction rows as [|r rest IH]; cbn [delete_by_id map]; [tauto|].
  intros H. inversion H as [|? ? Hnotin Hrest]; subst.
  destruct (p_id r =? i); [exact Hrest|]. cbn [map]. constructor.
  - intros Hin. apply Hnotin. apply in_map_iff in Hin.
    destruct Hin as [p [Hf Hp]]. apply in_map_iff. exists p.
    split; [exact Hf | apply (delete_by_id_incl i); exact Hp].
  - apply IH. exact Hrest.
Qed.

Lemma perform_keys_unique (a : action (R:=R)) (st : Session * Database) :
  catalog_keys_unique (snd st) -> catalog_keys_unique (snd (perform a st)).
Proof.
  destruct st as [session db]. unfold catalog_keys_unique. cbn [snd].
  intros [Hids Hcodes].
  destruct a as [req|c n u q l m now|i c n u q l m now|i]; cbn [perform snd fst].
  - rewrite (handle_products p_id), (handle_products p_code)
      by reflexivity. split; assumption.
  - unfold add_product. cbv zeta. cbn [p_id].
    destruct (code_taken (next_id (map p_id (t_product db))) (strip c)
                (t_product db)) eqn:Htaken; [split; assumption|].
    destruct db; cbn [snd t_product with_product] in *.
    rewrite !map_app. cbn [map p_id p_code].
    split; apply NoDup_snoc; try assumption; [apply next_id_fresh|].
    intros Hin. apply code_taken_new in Hin. rewrite Htaken in Hin.
    discriminate Hin.
  - unfold edit_product.
    destruct (product_by_id i (t_product db)) as [old|] eqn:Hfind;
      [|split; assumption].
    destruct (code_taken i (strip c) (t_product db)) eqn:Htaken;
      [split; assumption|].
    destruct (product_by_id_id _ _ _ Hfind) as [Hid Hin].
    match goal with
    | |- context [write_by_id i ?new _] =>
        destruct (write_by_id_split i _ old new Hfind)
          as (before & after & Hrows & Hwrite & Hnot)
    end.
    destruct db; cbn [snd t_product with_product] in *. rewrite Hwrite.
    rewrite Hrows, !map_app in Hids, Hcodes. cbn [map] in Hids, Hcodes.
    rewrite !map_app. cbn [map p_id p_code]. split; [exact Hids|].
    apply NoDup_remove in Hcodes. destruct Hcodes as [Hrest _].
    assert (Hfree : ~ In (strip c) (map p_code (before ++ after))).
    { intros Hc. apply in_map_iff in Hc.
      destruct Hc as [p [Hpc Hp]].
      assert (Htaken' : code_taken i (strip c) t_product0 = true).
      { apply code_taken_spec. exists p. rewrite Hrows.
        split; [apply in_app_iff; apply in_app_iff in Hp; cbn [In]; tauto|].
        split; [|exact Hpc].
        intros Hpid. apply NoDup_remove_2 in Hids. apply Hids.
        rewrite Hid, <- Hpid, <- map_app. apply in_map. exact Hp. }
      rewrite Htaken in Htaken'. discriminate Htaken'. }
    rewrite map_app in Hfree. clear - Hrest Hfree.
    induction before as [|b before IH]; cbn [app map] in *.
    + constructor; assumption.
    + inversion Hrest as [|? ? Hb Hrest']; subst. constructor.
      * rewrite in_app_iff in *. cbn [In]. intros [H | [H | H]]; try tauto.
        apply Hfree. left. symmetry. exact H.
      * apply IH; [exact Hrest'|]. intros H. apply Hfree. right. exact H.
  - unfold delete_product.
    destruct (product_by_id i (t_product db)); [|split; assumption].
    destruct db; cbn [snd t_product with_product] in *.
    split; apply delete_by_id_nodup; assumption.
Qed.

(** X11: primary keys and codes that identify the products keep doing so
    over any sequence of catalog edits and document requests: no two
    products ever share a key or a code. *)
Theorem catalog_keys_stay_unique (actions : list (action (R:=R)))
    (st : Session * Database) :
  catalog_keys_unique (snd st) ->
  catalog_keys_unique (snd (perform_all actions st)).
Proof.
  apply (perform_all_invariant (fun st' => catalog_keys_unique (snd st'))).
  apply perform_keys_unique.
Qed.

(** ** Dashboard and listings *)

(** X12: the low-stock list of the dashboard holds exactly the products
    whose quantity is less than or equal to their minimum stock, each as
    often as the catalog holds it; and when any two of these products
    compare one way or the other, each product of the list has a quantity
    less than or equal to that of the product after it. *)
Theorem low_stock_listing db :
  let low p := nle (p_quantity p) (p_min_stock p) in
  (forall p,
     In p (low_stock_products (index db)) <->
     In p (t_product db) /\ low p = true)
  /\ Permutation (low_stock_products (index db)) (filter low (t_product db))
  /\ ((forall p p',
         In p (t_product db) -> low p = true ->
         In p' (t_product db) -> low p' = true ->
         nle (p_quantity p) (p_quantity p') = false ->
         nle (p_quantity p') (p_quantity p) = true) ->
      Sorted (fun p p' => nle (p_quantity p) (p_quantity p') = true)
        (low_stock_products (index db))).
Proof.
  intros low. unfold index. cbn [low_stock_products]. split; [|split].
  - intros p. rewrite order_by_in, filter_In. reflexivity.
  - apply order_by_perm.
  - intros Htotal. apply order_by_sorted_on. intros p p' Hp Hp'.
    apply filter_In in Hp. apply filter_In in Hp'.
    apply Htotal; tauto.
Qed.

Lemma strongly_sorted_split {A : Type} (rel : A -> A -> Prop) (a b : list A) :
  StronglySorted rel (a ++ b) ->
  forall x y, In x a -> In y b -> rel x y.
Proof.
  induction a as [|h a IH]; cbn [app In]; [tauto|].
  intros Hs x y [-> | Hx] Hy.
  - inversion Hs as [|? ? _ Hall]; subst.
    rewrite Forall_forall in Hall. apply Hall. apply in_app_iff. tauto.
  - inversion Hs; subst. apply IH; assumption.
Qed.

(** Rows ordered by a [Z] key, greatest first: the first [k] and the rest. *)
Lemma newest_first {A : Type} (key : A -> Z) (k : nat) (table : list A) :
  let listing := order_by (fun a b => key b <=? key a) table in
  (List.length (firstn k listing) <= k)%nat
  /\ Permutation (firstn k listing ++ skipn k listing) table
  /\ (forall a b, In a (firstn k listing) -> In b (skipn k listing) ->
                  key b <= key a)
  /\ Sorted (fun a b => key b <= key a) (firstn k listing).
Proof.
  intros listing.
  assert (Hsorted : StronglySorted (fun a b => key b <= key a) listing).
  { apply Sorted_StronglySorted; [intros x y z; lia|].
    assert (H : Sorted (fun a b => (key b <=? key a) = true) listing).
    { apply order_by_sorted. intros a b Hab.
      apply Z.leb_gt in Hab. apply Z.leb_le. lia. }
    induction H as [|a l Hl IH Hhd]; constructor; [exact IH|].
    destruct Hhd as [|b l' Hab]; constructor. apply Z.leb_le. exact Hab. }
  split; [apply firstn_le_length|]. split.
  { rewrite firstn_skipn. apply order_by_perm. }
  rewrite <- (firstn_skipn k listing) in Hsorted. split.
  - intros a b Ha Hb. exact (strongly_sorted_split _ _ _ Hsorted a b Ha Hb).
  - apply StronglySorted_Sorted.
    clear - Hsorted. induction (firstn k listing) as [|h a IH];
      cbn [app] in *; [constructor|].
    inversion Hsorted as [|? ? Hrest Hall]; subst. constructor.
    + apply IH. exact Hrest.
    + apply Forall_app in Hall. tauto.
Qed.

(** X13: the dashboard shows at most five bills and at most five reception
    sheets, all from the tables, newest first, and no document left out is
    newer than one shown; they are the first five of the full listings. *)
Theorem recent_documents db :
  (recent_bills (index db) = firstn 5 (consumption_bills db)
   /\ (List.length (recent_bills (index db)) <= 5)%nat
   /\ Permutation (recent_bills (index db) ++ skipn 5 (consumption_bills db))
        (t_consumption_bill db)
   /\ (forall a b, In a (recent_bills (index db)) ->
                   In b (skipn 5 (consumption_bills db)) ->
                   cb_bill_date b <= cb_bill_date a)
   /\ Sorted (fun a b => cb_bill_date b <= cb_bill_date a) (recent_bills (index db)))
  /\
  (recent_receptions (index db) = firstn 5 (reception db)
   /\ (List.length (recent_receptions (index db)) <= 5)%nat
   /\ Permutation (recent_receptions (index db) ++ skipn 5 (reception db))
        (t_reception_sheet db)
   /\ (forall a b, In a (recent_receptions (index db)) ->
                   In b (skipn 5 (reception db)) ->
                   rs_reception_date b <= rs_reception_date a)
   /\ Sorted (fun a b => rs_reception_date b <= rs_reception_date a)
        (recent_receptions (index db))).
Proof.
  split; (split; [reflexivity|]).
  - exact (newest_first cb_bill_date 5 (t_consumption_bill db)).
  - exact (newest_first rs_reception_date 5 (t_reception_sheet db)).
Qed.

Lemma order_by_newest_last {A : Type} (le : A -> A -> bool) (new : A)
    (table : list A) :
  (forall a, In a table -> le a new = false) ->
  order_by le (table ++ [new]) = new :: order_by le table.
Proof.
  intros Hnew. unfold order_by. rewrite fold_right_app. cbn [fold_right insert_by].
  induction table as [|a rest IH]; cbn [fold_right]; [reflexivity|].
  rewrite IH by (intros b Hb; apply Hnew; right; exact Hb).
  cbn [insert_by]. rewrite (Hnew a) by (left; reflexivity). reflexivity.
Qed.

(** X14: a bill finalized at a time later than the date of every recorded
    bill heads the list of bills and the recent bills of the dashboard, with
    the stripped employee name and signature; the same for a reception. *)
Theorem finalized_document_heads_listing (faulty : nat -> bool)
    (now : timestamp) session db resp session' db' :
  (forall n sg,
     finalize_consumption_bill faulty n sg now session db = (resp, session', db') ->
     flashed resp = Some (BillFinalized, success) ->
     (forall b, In b (t_consumption_bill db) -> cb_bill_date b < now) ->
     let bill := {| cb_id := next_id (map cb_id (t_consumption_bill db));
                    cb_employee_name := strip n;
                    cb_employee_signature := strip sg;
                    cb_is_finished := true;
                    cb_bill_date := now |} in
     consumption_bills db' = bill :: consumption_bills db
     /\ recent_bills (index db') = bill :: firstn 4 (consumption_bills db))
  /\
  (forall sp dn nt,
     finalize_reception faulty sp dn nt now session db = (resp, session', db') ->
     flashed resp = Some (ReceptionFinalized, success) ->
     (forall r, In r (t_reception_sheet db) -> rs_reception_date r < now) ->
     let sheet := {| rs_id := next_id (map rs_id (t_reception_sheet db));
                     rs_supplier := strip sp;
                     rs_document_number := strip dn;
                     rs_notes := strip nt;
                     rs_is_finished := true;
                     rs_reception_date := now |} in
     reception db' = sheet :: reception db
     /\ recent_receptions (index db') = sheet :: firstn 4 (reception db)).
Proof.
  split.
  - intros n sg Hrun Hok Hlater bill.
    destruct (finalize_consumption_bill_success _ _ _ _ _ _ _ _ _ Hrun Hok)
      as (_ & _ & _ & ->).
    assert (Hlist : consumption_bills
                      (bill_committed (strip n) (strip sg) now
                         (entries (s_bill_items session)) db) =
                    bill :: consumption_bills db).
    { unfold consumption_bills. cbn [bill_committed t_consumption_bill].
      apply order_by_newest_last. intros b Hb. unfold bill_newer.
      cbn [cb_bill_date]. apply Z.leb_gt. apply Hlater. exact Hb. }
    split; [exact Hlist|].
    unfold index. cbn [recent_bills].
    change (order_by bill_newer (t_consumption_bill ?d))
      with (consumption_bills d).
    rewrite Hlist. reflexivity.
  - intros sp dn nt Hrun Hok Hlater sheet.
    destruct (finalize_reception_success _ _ _ _ _ _ _ _ _ _ Hrun Hok)
      as (_ & _ & _ & ->).
    assert (Hlist : reception
                      (reception_committed (strip sp) (strip dn) (strip nt) now
                         (entries (s_reception_items session)) db) =
                    sheet :: reception db).
    { unfold reception. cbn [reception_committed t_reception_sheet].
      apply order_by_newest_last. intros r Hr. unfold reception_newer.
      cbn [rs_reception_date]. apply Z.leb_gt. apply Hlater. exact Hr. }
    split; [exact Hlist|].
    unfold index. cbn [recent_receptions].
    change (order_by reception_newer (t_reception_sheet ?d))
      with (reception d).
    rewrite Hlist. reflexivity.
Qed.

(** ** Viewing a document *)

Lemma count_from_sorted {A : Type} (key : A -> Z) (l : list A) : forall start,
  map key l = count_from start (List.length l) ->
  Sorted (fun a b => (key a <=? key b) = true) l.
Proof.
  induction l as [|a rest IH]; intros start Hnum; [constructor|].
  cbn [map List.length count_from] in Hnum. injection Hnum as Ha Hrest.
  constructor; [apply (IH (start + 1)); exact Hrest|].
  destruct rest as [|b rest']; constructor.
  cbn [map List.length count_from] in Hrest. injection Hrest as Hb _.
  apply Z.leb_le. lia.
Qed.

Lemma find_bill_none (i : Z) (bills : list ConsumptionBill) :
  ~ In i (map cb_id bills) -> find (fun b => cb_id b =? i) bills = None.
Proof.
  induction bills as [|b rest IH]; cbn [find map In]; [reflexivity|].
  intros Hnot. destruct (cb_id b =? i) eqn:Hb.
  - apply Z.eqb_eq in Hb. tauto.
  - apply IH. tauto.
Qed.

(** X15: viewing a bill that was never recorded answers 404.  After a
    finalize that succeeded on a buffer numbered 1..n, in a store where every
    line item belongs to a recorded bill, viewing the new bill shows the
    stripped employee name and signature and the buffer entries, all of
    them and in buffer order, and viewing an older bill shows what it showed
    before. *)
Theorem finalize_then_view (faulty : nat -> bool) (n sg : string)
    (now : timestamp) session db resp session' db' :
  (forall i, ~ In i (map cb_id (t_consumption_bill db)) ->
             view_consumption_bill i db = None)
  /\
  (finalize_consumption_bill faulty n sg now session db = (resp, session', db') ->
   flashed resp = Some (BillFinalized, success) ->
   numbered (s_bill_items session) ->
   (forall row, In row (t_bill_item db) ->
                In (parent_id row) (map cb_id (t_consumption_bill db))) ->
   let bill_id := next_id (map cb_id (t_consumption_bill db)) in
   view_consumption_bill bill_id db' =
   Some ({| cb_id := bill_id;
            cb_employee_name := strip n;
            cb_employee_signature := strip sg;
            cb_is_finished := true;
            cb_bill_date := now |},
         map (row_of_item bill_id) (entries (s_bill_items session)))
   /\ forall other, In other (map cb_id (t_consumption_bill db)) ->
        view_consumption_bill other db' = view_consumption_bill other db).
Proof.
  split.
  - intros i Hnot. unfold view_consumption_bill.
    rewrite (find_bill_none i _ Hnot). reflexivity.
  - intros Hrun Hok Hnum Href bill_id.
    destruct (finalize_consumption_bill_success _ _ _ _ _ _ _ _ _ Hrun Hok)
      as (Hbuf & _ & _ & ->).
    unfold view_consumption_bill.
    cbn [bill_committed t_consumption_bill t_bill_item]. fold bill_id.
    split.
    + rewrite find_app_first, (find_bill_none bill_id)
        by apply next_id_fresh.
      cbn [find cb_id]. rewrite Z.eqb_refl. f_equal. f_equal.
      change (filter (fun row : ItemRow => parent_id row =? bill_id) ?t)
        with (items_of bill_id t).
      rewrite items_of_app, items_of_rows, Z.eqb_refl, items_of_none.
      * cbn [app]. apply order_by_of_sorted.
        apply (count_from_sorted r_item_number _ 1).
        apply rows_numbered_of_items. rewrite <- Hbuf. exact Hnum.
      * intros row Hin Hp. apply (next_id_fresh (map cb_id (t_consumption_bill db))).
        fold bill_id. rewrite <- Hp. apply Href. exact Hin.
    + intros other Hother.
      assert (Hneq : bill_id <> other).
      { intros <-. exact (next_id_fresh _ Hother). }
      rewrite find_app_first.
      destruct (find (fun b => cb_id b =? other) (t_consumption_bill db))
        as [b|] eqn:Hfind.
      * f_equal. f_equal.
        change (filter (fun row : ItemRow => parent_id row =? other) ?t)
          with (items_of other t).
        rewrite items_of_app, items_of_rows.
        apply Z.eqb_neq in Hneq. subst bill_id. cbn [cb_id].
        rewrite Hneq, app_nil_r. reflexivity.
      * exfalso. apply in_map_iff in Hother. destruct Hother as [b [Hb Hin]].
        pose proof (find_none _ _ Hfind b Hin) as Hcontra. cbn in Hcontra.
        rewrite Hb, Z.eqb_refl in Hcontra. discriminate Hcontra.
Qed.

End SiteProperties.

(** ** Concrete instances *)

Lemma single_draft_kept_witness :
  single_draft catalog_A1
  /\ single_draft (snd (perform_all day_of_work (fresh_session, catalog_A1))).
Proof.
  assert (Hstart : single_draft catalog_A1).
  { unfold single_draft. cbn. repeat split; try lia; intros row []. }
  split; [exact Hstart|].
  apply (single_draft_kept day_of_work (fresh_session, catalog_A1) Hstart).
Defined.

Lemma numbering_kept_everywhere_witness :
  numbering_kept (fresh_session, catalog_A1)
  /\ numbering_kept (perform_all day_of_work (fresh_session, catalog_A1)).
Proof.
  assert (Hstart : numbering_kept (fresh_session, catalog_A1)).
  { unfold numbering_kept, drafts_numbered, documents_numbered. cbn.
    repeat split; try (intros ? []); try (intros ? H; discriminate H). }
  split; [exact Hstart|].
  apply (numbering_kept_everywhere day_of_work (fresh_session, catalog_A1) Hstart).
Defined.

Lemma add_then_remove_restores_witness :
  let session := set_bill_items (Some [entry_A1 1 4%float]) fresh_session in
  let session1 :=
    set_bill_items (Some [entry_A1 1 4%float; entry_A1 2 2%float]) fresh_session in
  add_bill_item "A1" 2%float session catalog_A1 =
    (JsonSuccess (entry_A1 2 2%float), session1)
  /\ remove_bill_item 1 session1 =
     (FlashRedirect (Some (ItemRemoved, success)) to_create_consumption_bill,
      session).
Proof.
  intros session session1.
  assert (Hadd : add_bill_item "A1" 2%float session catalog_A1 =
                 (JsonSuccess (entry_A1 2 2%float), session1))
    by (vm_compute; reflexivity).
  split; [exact Hadd|].
  destruct (add_then_remove_restores "A1" 2%float session catalog_A1
              (entry_A1 2 2%float) session1) as [Hbill _].
  apply Hbill; [reflexivity | exact Hadd].
Defined.

Lemma add_product_outcomes_witness :
  add_product "A1 " "Surub" "buc" 3%float "Raft 9" 1%float 7 catalog_A1 =
    (ProductForm CodeExists, catalog_A1)
  /\ exists product,
       add_product " B2 " "Piulita M8" "buc" 5%float "Raft 2" 1%float 7 catalog_A1 =
       (ToProducts ProductAdded, with_product [product_A1; product] catalog_A1)
       /\ p_code product = "B2"
       /\ product_by_code "B2" [product_A1; product] = Some product.
Proof.
  split.
  - destruct (add_product_outcomes "A1 " "Surub" "buc" 3%float "Raft 9"
                1%float 7 catalog_A1) as [Hdup _].
    apply Hdup. left. reflexivity.
  - destruct (add_product_outcomes " B2 " "Piulita M8" "buc" 5%float "Raft 2"
                1%float 7 catalog_A1) as [_ Hnew].
    destruct Hnew as [product (Hrun & _ & Hdesc & _ & Hfound & _)].
    { intros [H | []]. discriminate H. }
    exists product. split; [exact Hrun|]. split; [|exact Hfound].
    exact (f_equal (fun d => snd (fst (fst (fst (fst d))))) Hdesc).
Defined.

Lemma delete_product_outcomes_witness :
  delete_product 7 catalog_A1 = (NotFound404, catalog_A1)
  /\ delete_product 1 catalog_A1 =
     (ToProducts ProductDeleted, with_product [] catalog_A1)
  /\ add_bill_item "A1" 1%float fresh_session (with_product [] catalog_A1) =
     (JsonError ProductNotFound 400, fresh_session).
Proof.
  destruct (delete_product_outcomes 7 catalog_A1) as [Hmissing _].
  destruct (delete_product_outcomes 1 catalog_A1) as [_ Hfound].
  split; [apply Hmissing; reflexivity|].
  destruct (Hfound product_A1 eq_refl)
    as (before & after & Hrows & Hrun & _ & Hrefused).
  assert (Hshape : before = [] /\ after = []).
  { destruct before as [|b before]; cbn in Hrows.
    - injection Hrows as Hafter. auto.
    - destruct before; discriminate Hrows. }
  destruct Hshape as [-> ->].
  split; [exact Hrun|].
  apply (Hrefused ltac:(repeat constructor; intros []) 1%float fresh_session).
Defined.

Lemma edit_product_outcomes_witness :
  edit_product 9 "A1" "Surub M10" "buc" 6%float "Raft 1" 2%float 5 catalog_A1 =
    (NotFound404, catalog_A1)
  /\ exists before after,
       [product_A1] = before ++ product_A1 :: after
       /\ edit_product 1 " A1" "Surub M10 " "buc" 6%float "Raft 1" 2%float 5
            catalog_A1 =
          (ToProducts ProductUpdated,
           with_product
             (before ++
              {| p_id := 1; p_code := "A1"; p_name := "Surub M10";
                 p_unit := "buc"; p_quantity := 6%float; p_location := "Raft 1";
                 p_min_stock := 2%float; p_updated_at := 5 |} :: after)
             catalog_A1).
Proof.
  destruct (edit_product_outcomes 9 "A1" "Surub M10" "buc" 6%float "Raft 1"
              2%float 5 catalog_A1) as [Hmissing _].
  destruct (edit_product_outcomes 1 " A1" "Surub M10 " "buc" 6%float "Raft 1"
              2%float 5 catalog_A1) as [_ Hfound].
  split; [apply Hmissing; reflexivity|].
  destruct (Hfound product_A1 eq_refl) as (_ & Hfree & Hown).
  destruct Hfree as (before & after & Hrows & _ & Hrun).
  { apply Hown; [repeat constructor; intros [] | reflexivity]. }
  exists before, after. split; [exact Hrows | exact Hrun].
Defined.

Lemma catalog_keys_stay_unique_witness :
  catalog_keys_unique catalog_A1
  /\ catalog_keys_unique (snd (perform_all day_of_work (fresh_session, catalog_A1))).
Proof.
  assert (Hstart : catalog_keys_unique catalog_A1).
  { split; cbn; repeat constructor; intros []. }
  split; [exact Hstart|].
  apply (catalog_keys_stay_unique day_of_work (fresh_session, catalog_A1) Hstart).
Defined.

Lemma low_stock_listing_witness :
  map p_code (low_stock_products (index catalog_low)) = ["C3"; "A1"]
  /\ Sorted (fun p p' => nle (p_quantity p) (p_quantity p') = true)
       (low_stock_products (index catalog_low)).
Proof.
  split; [vm_compute; reflexivity|].
  destruct (low_stock_listing catalog_low) as (_ & _ & Hsorted).
  apply Hsorted. intros p p' Hp Hlow Hp' Hlow'.
  cbn [t_product catalog_low In] in Hp, Hp'.
  destruct Hp as [<- | [<- | [<- | [<- | []]]]];
    try (vm_compute in Hlow; discriminate Hlow);
    destruct Hp' as [<- | [<- | [<- | [<- | []]]]];
    try (vm_compute in Hlow'; discriminate Hlow');
    vm_compute; intros H; first [discriminate H | reflexivity].
Defined.

Lemma recent_documents_witness :
  (List.length (recent_bills (index catalog_with_bill)) <= 5)%nat
  /\ recent_bills (index catalog_with_bill) = consumption_bills catalog_with_bill.
Proof.
  destruct (recent_documents catalog_with_bill) as [(Hfirst & Hlen & _) _].
  split; [exact Hlen|]. rewrite Hfirst. vm_compute. reflexivity.
Defined.

Lemma finalized_document_heads_listing_witness :
  let out := finalize_consumption_bill no_faults " Ion Radu" "IR" 9
               session_pending catalog_with_bill in
  map cb_employee_name (consumption_bills (snd out)) = ["Ion Radu"; "Ana Pop"]
  /\ map cb_id (recent_bills (index (snd out))) = [2; 1].
Proof.
  intros out.
  destruct (finalized_document_heads_listing no_faults 9 session_pending
              catalog_with_bill (fst (fst out)) (snd (fst out)) (snd out))
    as [Hbill _].
  destruct (Hbill " Ion Radu" "IR") as [Hlist Hrecent].
  - vm_compute. reflexivity.
  - vm_compute. reflexivity.
  - intros b [<- | []]. cbn. lia.
  - rewrite Hrecent, Hlist. split; vm_compute; reflexivity.
Defined.

Lemma finalize_then_view_witness :
  let out := finalize_consumption_bill no_faults " Ion Radu" "IR" 9
               session_pending catalog_with_bill in
  view_consumption_bill 7 catalog_with_bill = None
  /\ option_map (fun shown => map r_quantity (snd shown))
       (view_consumption_bill 2 (snd out)) = Some [2%float]
  /\ view_consumption_bill 1 (snd out) = view_consumption_bill 1 catalog_with_bill.
Proof.
  intros out.
  destruct (finalize_then_view no_faults " Ion Radu" "IR" 9 session_pending
              catalog_with_bill (fst (fst out)) (snd (fst out)) (snd out))
    as [Hmissing Hshown].
  split.
  { apply Hmissing. intros [H | []]. discriminate H. }
  destruct Hshown as [Hnew Hold].
  - vm_compute. reflexivity.
  - vm_compute. reflexivity.
  - reflexivity.
  - intros row [<- | []]. left. reflexivity.
  - split.
    + change 2 with (next_id (map cb_id (t_consumption_bill catalog_with_bill))).
      rewrite Hnew. reflexivity.
    + apply Hold. left. reflexivity.
Defined.
